(** * COSMICi server: the node-session and run-coordination core

    A shallow embedding of the Python sources under [server/src]
    ([nmea.py], [publisher.py], [model.py], [wifi.py], [commands.py],
    [runmgr.py], [gps.py]) together with the properties proved about it.

    Conventions used throughout:
    - a Python [str] is a Rocq [string] whose characters are code points
      below 256 (the wire protocol is ASCII text);
    - a Python call that may raise is a function into [result];
    - log output is an explicit list of [log_entry] values, newest last;
    - objects mutated in place are records threaded through the calls. *)

From Stdlib Require Import ZArith NArith List String Ascii Bool Lia.
From stdpp Require Import base gmap strings list pretty.
Import ListNotations.

Local Open Scope string_scope.

(** ** Python exceptions and results *)

Inductive exn : Type :=
  | BadChecksum
  | ValueError
  | IndexError
  | TypeError
  | KeyError
  | AttributeError
  | AssertionError
  | EmptyCommand.

Inductive result (A : Type) : Type :=
  | Returns (a : A)
  | Raises (e : exn).

Arguments Returns {A} a.
Arguments Raises {A} e.

#[export] Instance result_ret : MRet result := fun A a => Returns a.

#[export] Instance result_bind : MBind result := fun A B k r =>
  match r with
  | Returns a => k a
  | Raises e => Raises e
  end.

(** ** Python string primitives *)

Module PyStr.

(** [s[-k]] for [1 <= k <= len(s)]. *)
Definition from_end (k : nat) (s : string) : option ascii :=
  String.get (String.length s - k) s.

(** [s[1:]] *)
Definition drop_first (s : string) : string :=
  match s with
  | EmptyString => EmptyString
  | String _ r => r
  end.

(** [s[-2:]] *)
Definition last_two (s : string) : string :=
  String.substring (String.length s - 2) 2 s.

(** [s[:-3]] *)
Definition drop_last3 (s : string) : string :=
  String.substring 0 (String.length s - 3) s.

Definition char_is (c : ascii) (o : option ascii) : bool :=
  match o with
  | Some d => Ascii.eqb c d
  | None => false
  end.

(** [str.encode()]: UTF-8 of each code point (below 256 here). *)
Definition encode_char (c : ascii) : list N :=
  let n := N_of_ascii c in
  if (n <? 128)%N then [n]
  else [N.lor 192 (N.shiftr n 6); N.lor 128 (N.land n 63)].

Fixpoint encode (s : string) : list N :=
  match s with
  | EmptyString => []
  | String c r => encode_char c ++ encode r
  end.

(** Characters that [int()] treats as blank: the C-locale blanks, and
    the two code points above 127 (and below 256) that Unicode counts
    as white space, which [int()] first rewrites to a blank. *)
Definition int_space (c : ascii) : bool :=
  let n := N_of_ascii c in
  ((9 <=? n) && (n <=? 13) || (n =? 32) || (n =? 133) || (n =? 160))%N.

Definition hexval (c : ascii) : option Z :=
  let n := N_of_ascii c in
  if ((48 <=? n) && (n <=? 57))%N then Some (Z.of_N n - 48)%Z
  else if ((97 <=? n) && (n <=? 102))%N then Some (Z.of_N n - 87)%Z
  else if ((65 <=? n) && (n <=? 70))%N then Some (Z.of_N n - 55)%Z
  else None.

Fixpoint skip_spaces (l : list ascii) : list ascii :=
  match l with
  | c :: r => if int_space c then skip_spaces r else l
  | [] => []
  end.

(** Digits with single underscores between them, up to the first
    character that is neither; returns the value, the number of digits
    read, whether the last character read was an underscore, and the
    rest. *)
Definition digitval (base : Z) (c : ascii) : option Z :=
  match hexval c with
  | Some d => if (d <? base)%Z then Some d else None
  | None => None
  end.

Fixpoint scan_digits (base : Z) (acc : Z) (ndig : nat) (prev_us : bool)
         (l : list ascii) : option (Z * nat * bool * list ascii) :=
  match l with
  | [] => Some (acc, ndig, prev_us, [])
  | c :: r =>
      if Ascii.eqb c "_" then
        if prev_us then None else scan_digits base acc ndig true r
      else
        match digitval base c with
        | Some d => scan_digits base (base * acc + d)%Z (S ndig) false r
        | None => Some (acc, ndig, prev_us, l)
        end
  end.

(** [int(s, base)] for base 10 or 16 as CPython computes it: blanks
    skipped on both sides, an optional sign, in base 16 an optional
    [0x]/[0X] prefix (one underscore may follow it), then digits of the
    base; anything else is a [ValueError]. *)
Definition py_int (base : Z) (s : string) : result Z :=
  let l0 := skip_spaces (list_ascii_of_string s) in
  let '(neg, l1) :=
    match l0 with
    | c :: r => if Ascii.eqb c "+" then (false, r)
                else if Ascii.eqb c "-" then (true, r)
                else (false, l0)
    | [] => (false, l0)
    end in
  let l2 :=
    match l1 with
    | z :: x :: r =>
        if (base =? 16)%Z && Ascii.eqb z "0"
           && (Ascii.eqb x "x" || Ascii.eqb x "X") then
          match r with
          | u :: r' => if Ascii.eqb u "_" then r' else r
          | [] => r
          end
        else l1
    | _ => l1
    end in
  match l2 with
  | c :: _ =>
      if Ascii.eqb c "_" then Raises ValueError
      else
        match scan_digits base 0 0 false l2 with
        | Some (v, S _, false, rest) =>
            match skip_spaces rest with
            | [] => Returns (if neg then (- v)%Z else v)
            | _ :: _ => Raises ValueError
            end
        | _ => Raises ValueError
        end
  | [] => Raises ValueError
  end.

(** [int(s, 16)] and [int(s)]. *)
Definition int_base16 (s : string) : result Z := py_int 16 s.
Definition int_base10 (s : string) : result Z := py_int 10 s.

(** The characters [str.strip()] and [str.split()] treat as white
    space, among code points below 256. *)
Definition py_space (c : ascii) : bool :=
  let n := N_of_ascii c in
  ((9 <=? n) && (n <=? 13) || (28 <=? n) && (n <=? 32)
   || (n =? 133) || (n =? 160))%N.

Fixpoint lstrip (l : list ascii) : list ascii :=
  match l with
  | c :: r => if py_space c then lstrip r else l
  | [] => []
  end.

(** [s.strip()] *)
Definition strip (s : string) : string :=
  string_of_list_ascii
    (rev (lstrip (rev (lstrip (list_ascii_of_string s))))).

(** [s.split()]: the maximal runs of characters that are not white
    space.  [cur] is the run being read, reversed. *)
Fixpoint split_ws (cur : list ascii) (l : list ascii) : list string :=
  match l with
  | [] =>
      match cur with
      | [] => []
      | _ :: _ => [string_of_list_ascii (rev cur)]
      end
  | c :: r =>
      if py_space c then
        match cur with
        | [] => split_ws [] r
        | _ :: _ => string_of_list_ascii (rev cur) :: split_ws [] r
        end
      else split_ws (c :: cur) r
  end.

Definition split (s : string) : list string :=
  split_ws [] (list_ascii_of_string s).

(** [s.split(sep)] for a one-character separator. *)
Fixpoint split_on (sep : ascii) (s : string) : list string :=
  match s with
  | EmptyString => [EmptyString]
  | String c r =>
      if Ascii.eqb c sep then EmptyString :: split_on sep r
      else
        match split_on sep r with
        | w :: ws => String c w :: ws
        | [] => [String c EmptyString]
        end
  end.

(** [s.replace(old, new)] for a two-character [old]. *)
Fixpoint replace2 (a b : ascii) (new : string) (s : string) : string :=
  match s with
  | EmptyString => EmptyString
  | String c r =>
      match r with
      | String d r' =>
          if Ascii.eqb c a && Ascii.eqb d b then new ++ replace2 a b new r'
          else String c (replace2 a b new r)
      | EmptyString => s
      end
  end.

(** [s.startswith(p)] *)
Definition startswith (p s : string) : bool := String.prefix p s.

(** [sep.join(l)] *)
Definition join (sep : string) (l : list string) : string :=
  String.concat sep l.

Definition hexdigit (d : N) : ascii :=
  if (d <? 10)%N then ascii_of_N (48 + d) else ascii_of_N (87 + d).

(** The digits of [n] in base 16, least significant first. *)
Fixpoint hex_rev (fuel : nat) (n : N) : list ascii :=
  match fuel with
  | O => []
  | S f =>
      hexdigit (n mod 16) ::
      (if (n / 16 =? 0)%N then [] else hex_rev f (n / 16))
  end.

(** ["%02x" % n] for a non-negative [n]. *)
Definition fmt_02x (n : N) : string :=
  let ds := rev (hex_rev (S (N.to_nat (N.log2 n))) n) in
  string_of_list_ascii
    (match ds with
     | [d] => ["0"%char; d]
     | _ => ds
     end).

(** Flip bit [k] of the character at index [i]. *)
Definition flip_bit (k : N) (c : ascii) : ascii :=
  ascii_of_N (N.lxor (N_of_ascii c) (2 ^ k)).

Fixpoint flip_at (i : nat) (k : N) (s : string) : string :=
  match s, i with
  | EmptyString, _ => EmptyString
  | String c r, O => String (flip_bit k c) r
  | String c r, S j => String c (flip_at j k r)
  end.

End PyStr.

(** ** nmea.py *)

Module Nmea.
Import PyStr.

Definition isNMEA (line : string) : bool :=
  negb (String.eqb line "") && char_is "$" (String.get 0 line).

Definition getCRC (sent : string) : result (option Z) :=
  let length := String.length sent in
  if (length <? 3)%nat then Returns None
  else if negb (char_is "*" (from_end 3 sent)) then Returns None
  else
    let last2 := last_two sent in
    v ← int_base16 last2; Returns (Some v).

Definition calcCRC (bareStr : string) : N :=
  let codes := encode bareStr in
  fold_left N.lxor codes 0%N.

Definition stripNMEA (line : string) : result string :=
  if negb (isNMEA line) then Returns line
  else
    let line := drop_first line in
    crc ← getCRC line;
    match crc with
    | None => Returns line
    | Some crc =>
        let line := drop_last3 line in
        if negb (Z.of_N (calcCRC line) =? crc)%Z then Raises BadChecksum
        else Returns line
    end.

Definition makeNMEA (line : string) (makeChecksum : bool) : string :=
  let line :=
    if makeChecksum then
      let crcNum := calcCRC line in
      let crcStr := "*" ++ fmt_02x crcNum in
      line ++ crcStr
    else line in
  "$" ++ line.

(** A checksummed sentence for [s] with one bit of its checksum field
    flipped in transit: bit [k] of the field's character [pos]. *)
Definition corrupt_checksum (s : string) (pos : nat) (k : N) : string :=
  flip_at (String.length s + 2 + pos) k (makeNMEA s true).

Definition lower_hex_letter (c : ascii) : bool :=
  let n := N_of_ascii c in ((97 <=? n) && (n <=? 102))%N.

(** The flips that leave the number read from the field unchanged:
    bit 5 of a letter [a]..[f] (which capitalises it), bit 4 of a
    leading ["0"] (which turns it into a blank), and bit 4 of the
    second character of the field ["00"] (likewise). *)
Definition harmless_flip (field : string) (pos : nat) (k : N) : bool :=
  match String.get pos field with
  | Some c =>
      (k =? 5)%N && lower_hex_letter c
      || (k =? 4)%N && (pos =? 0)%nat && Ascii.eqb c "0"
      || (k =? 4)%N && (pos =? 1)%nat && String.eqb field "00"
  | None => false
  end.

Definition no_dollar_star (s : string) : bool :=
  forallb (fun c => negb (Ascii.eqb c "$") && negb (Ascii.eqb c "*"))
          (list_ascii_of_string s).

End Nmea.

(** ** publisher.py

    A subscriber's "address" is a callable; it is named here by a
    number, and calling it is recorded as a delivery.  The publisher's
    only state is the dictionary [_subscriptions]. *)

Module Publisher.

Abbreviation address := nat.

Record Issue : Type := mkIssue { title : string; content : Z }.

Abbreviation subscriptions := (gmap string (list address)).

(** [Publisher.__init__] *)
Definition init : subscriptions := ∅.

(** [this._subscriptions[title]], once [hasTitle] has made it exist. *)
Definition subscribers (title : string) (subs : subscriptions) : list address :=
  default [] (subs !! title).

Definition hasTitle (title : string) (subs : subscriptions) : subscriptions :=
  match subs !! title with
  | None => <[title := []]> subs
  | Some _ => subs
  end.

Definition subscribe (addr : address) (title : string)
           (subs : subscriptions) : subscriptions :=
  let subs := hasTitle title subs in
  <[title := (subscribers title subs ++ [addr])%list]> subs.

Definition subscribeAll (addr : address) (subs : subscriptions) : subscriptions :=
  subscribe addr "__ALL__" subs.

(** [deliver] calls the address with the issue. *)
Definition deliver (issue : Issue) (addr : address) : address * Issue :=
  (addr, issue).

(** [publish]: the state afterwards and the calls made, in order. *)
Definition publish (issue : Issue) (subs : subscriptions)
  : subscriptions * list (address * Issue) :=
  let title := issue.(title) in
  let subs := hasTitle title subs in
  let subs := hasTitle "__ALL__" subs in
  (subs,
   map (deliver issue)
       (subscribers title subs ++ subscribers "__ALL__" subs)%list).

(** How many times [publish] calls [addr]. *)
Definition calls (addr : address) (issue : Issue) (subs : subscriptions) : nat :=
  count_occ Nat.eq_dec (map fst (snd (publish issue subs))) addr.

End Publisher.

(** ** Observable effects and the method monad

    A method of an object with state [S] is a function from the state
    before the call to the outcome, the state after it and the effects
    it had, in order.  State changes made before an exception is raised
    stay made, as in Python. *)

Inductive level : Type := DEBUG | INFO | NORMAL | WARNING | ERROR.

Inductive channel : Type := UartSrv | AuxioSrv | MainSrv.

Inductive event : Type :=
  | Log (lvl : level) (text : string)       (* a module logger call *)
  | NodeLog (node : Z) (lvl : level) (text : string) (* a node's own logger *)
  | NodeLogNamed (node : Z) (lvlname : string) (text : string)
                                            (* the same, level given by name *)
  | Send (via : channel) (line : string)    (* a line put on a connection *)
  | Listen (name : string) (port : Z)       (* a bridge server starts *)
  | Component (name : string).              (* logmaster.setComponent *)

Definition state_of {S A} (x : result A * S * list event) : S := snd (fst x).
Definition outcome_of {S A} (x : result A * S * list event) : result A :=
  fst (fst x).
Definition trace_of {S A} (x : result A * S * list event) : list event :=
  snd x.

Record M (S A : Type) : Type := mkM { run : S -> result A * S * list event }.

Arguments mkM {S A} run.
Arguments run {S A} m s.

#[export] Instance M_ret {S} : MRet (M S) := fun A a =>
  mkM (fun s => (Returns a, s, [])).

#[export] Instance M_bind {S} : MBind (M S) := fun A B k m =>
  mkM (fun s =>
    let x := run m s in
    match outcome_of x with
    | Returns a =>
        let y := run (k a) (state_of x) in
        (outcome_of y, state_of y, (trace_of x ++ trace_of y)%list)
    | Raises e => (Raises e, state_of x, trace_of x)
    end).

Definition get {S} : M S S := mkM (fun s => (Returns s, s, [])).
Definition put {S} (s : S) : M S unit := mkM (fun _ => (Returns tt, s, [])).
Definition modify {S} (f : S -> S) : M S unit :=
  mkM (fun s => (Returns tt, f s, [])).
Definition emits {S} (t : list event) : M S unit :=
  mkM (fun s => (Returns tt, s, t)).
Definition emit {S} (e : event) : M S unit := emits [e].
Definition raise {S A} (e : exn) : M S A := mkM (fun s => (Raises e, s, [])).
Definition log {S} (lvl : level) (text : string) : M S unit :=
  emit (Log lvl text).
Definition skip {S} : M S unit := mret tt.

(** [try: m except Exception as e: h e] *)
Definition try_except {S A} (m : M S A) (h : exn -> M S A) : M S A :=
  mkM (fun s =>
    let x := run m s in
    match outcome_of x with
    | Returns _ => x
    | Raises e =>
        let y := run (h e) (state_of x) in
        (outcome_of y, state_of y, (trace_of x ++ trace_of y)%list)
    end).

(** Run a method of a component on the component held in a field. *)
Definition zoom {S T A} (proj : S -> T) (upd : T -> S -> S)
           (m : M T A) : M S A :=
  mkM (fun s =>
    let x := run m (proj s) in
    (outcome_of x, upd (state_of x) s, trace_of x)).

(** ["%d" % n] *)
Definition fmt_d (n : Z) : string := pretty n.

Definition isSome {A} (o : option A) : bool :=
  match o with Some _ => true | None => false end.

(** ** bridge.py: the per-node bridge servers *)

Module Bridge.

Record BridgeServer : Type := mkBridgeServer {
  name : string;
  nodeID : Z;
  port : Z;
  connHandlers : list string;
  listening : bool
}.

(** [BridgeServer.__init__] *)
Definition init (basePort nodeID : Z) (name : string)
  : BridgeServer * list event :=
  let port := (basePort + nodeID)%Z in
  (mkBridgeServer name nodeID port
     ["node" ++ fmt_d nodeID ++ "." ++ name ++ ".trnscr"] false,
   [Log INFO ("Setting up server for receiving " ++ name
              ++ " bridge from node " ++ fmt_d nodeID
              ++ " on port " ++ fmt_d port ++ ".")]).

Definition addConnHandler (h : string) (s : BridgeServer) : BridgeServer :=
  mkBridgeServer s.(name) s.(nodeID) s.(port)
                 (s.(connHandlers) ++ [h])%list s.(listening).

(** [BridgeServer.start] *)
Definition start (s : BridgeServer) : BridgeServer * list event :=
  (mkBridgeServer s.(name) s.(nodeID) s.(port) s.(connHandlers) true,
   [Log DEBUG ("Bridge server " ++ s.(name) ++ " (node " ++ fmt_d s.(nodeID)
               ++ ") is about to start listening for client connections...");
    Listen s.(name) s.(port)]).

(** [BridgeServer.send]: the line goes to the server's clients. *)
Definition send (via : channel) (s : BridgeServer) (line : string) : list event :=
  [Log DEBUG ("Bridge server " ++ s.(name) ++ " is sending message ["
              ++ PyStr.strip line ++ "] to all active clients...");
   Send via line].

End Bridge.

(** ** ports.py *)

Definition LASER_PORT : Z := 52737.
Definition MESON_PORT : Z := 63766.

(** ** wifi.py: the model of a node's Wi-Fi module *)

Module WiFi.

Record WiFi_Module : Type := mkWiFi {
  nodenum : Z;
  ipaddr : string;
  macaddr : option string;
  status : string;
  mainConn : option nat;
  auxioServer : option Bridge.BridgeServer;
  uartServer : option Bridge.BridgeServer;
  bridge_mode : string;
  onAt : option Z;
  lastSeen : option Z
}.

Definition set_ipaddr (v : string) (w : WiFi_Module) : WiFi_Module :=
  mkWiFi w.(nodenum) v w.(macaddr) w.(status) w.(mainConn) w.(auxioServer)
         w.(uartServer) w.(bridge_mode) w.(onAt) w.(lastSeen).
Definition set_macaddr (v : option string) (w : WiFi_Module) : WiFi_Module :=
  mkWiFi w.(nodenum) w.(ipaddr) v w.(status) w.(mainConn) w.(auxioServer)
         w.(uartServer) w.(bridge_mode) w.(onAt) w.(lastSeen).
Definition set_status (v : string) (w : WiFi_Module) : WiFi_Module :=
  mkWiFi w.(nodenum) w.(ipaddr) w.(macaddr) v w.(mainConn) w.(auxioServer)
         w.(uartServer) w.(bridge_mode) w.(onAt) w.(lastSeen).
Definition set_auxioServer (v : option Bridge.BridgeServer) (w : WiFi_Module)
  : WiFi_Module :=
  mkWiFi w.(nodenum) w.(ipaddr) w.(macaddr) w.(status) w.(mainConn) v
         w.(uartServer) w.(bridge_mode) w.(onAt) w.(lastSeen).
Definition set_uartServer (v : option Bridge.BridgeServer) (w : WiFi_Module)
  : WiFi_Module :=
  mkWiFi w.(nodenum) w.(ipaddr) w.(macaddr) w.(status) w.(mainConn)
         w.(auxioServer) v w.(bridge_mode) w.(onAt) w.(lastSeen).
Definition set_bridge_mode (v : string) (w : WiFi_Module) : WiFi_Module :=
  mkWiFi w.(nodenum) w.(ipaddr) w.(macaddr) w.(status) w.(mainConn)
         w.(auxioServer) w.(uartServer) v w.(onAt) w.(lastSeen).
Definition set_onAt (v : option Z) (w : WiFi_Module) : WiFi_Module :=
  mkWiFi w.(nodenum) w.(ipaddr) w.(macaddr) w.(status) w.(mainConn)
         w.(auxioServer) w.(uartServer) w.(bridge_mode) v w.(lastSeen).
Definition set_lastSeen (v : option Z) (w : WiFi_Module) : WiFi_Module :=
  mkWiFi w.(nodenum) w.(ipaddr) w.(macaddr) w.(status) w.(mainConn)
         w.(auxioServer) w.(uartServer) w.(bridge_mode) w.(onAt) v.

(** [WiFi_Module.__init__] *)
Definition init (num : Z) (ip : string) : WiFi_Module :=
  mkWiFi num ip None "UNSEEN" None None None "UNKNOWN" None None.

Definition _uartSrvConnected (this : WiFi_Module) : bool :=
  isSome this.(uartServer).
Definition _auxioSrvConnected (this : WiFi_Module) : bool :=
  isSome this.(auxioServer).
Definition _mainSrvConnected (this : WiFi_Module) : bool :=
  isSome this.(mainConn).

Definition sendTo_uartSrv (line : string) : M WiFi_Module unit :=
  this ← get;
  match this.(uartServer) with
  | None =>
      log ERROR ("WiFi_Module.sendTo_uartSrv(): Can't send the line [" ++ line
                 ++ "] via the UART server because no connection from that node is open.")
  | Some srv => emits (Bridge.send UartSrv srv line)
  end.

Definition sendTo_auxioSrv (line : string) : M WiFi_Module unit :=
  this ← get;
  match this.(auxioServer) with
  | None =>
      log ERROR ("WiFi_Module.sendTo_auxioSrv(): Can't send the line [" ++ line
                 ++ "] via the AUXIO server because no connection from that node is open.")
  | Some srv => emits (Bridge.send AuxioSrv srv line)
  end.

Definition sendTo_mainSrv (line : string) : M WiFi_Module unit :=
  this ← get;
  match this.(mainConn) with
  | None =>
      log ERROR ("WiFi_Module.sendTo_mainSrv(): Can't send the line [" ++ line
                 ++ "] via the MAIN server because no connection from that node is open.")
  | Some _ => emit (Send MainSrv line)
  end.

Definition sendScript (line : string) : M WiFi_Module unit :=
  this ← get;
  if String.eqb this.(bridge_mode) "TREFOIL" && _uartSrvConnected this then
    sendTo_uartSrv line
  else if _auxioSrvConnected this then
    sendTo_auxioSrv line
  else if _mainSrvConnected this then
    sendTo_mainSrv line
  else
    log ERROR ("WiFi_Module.sendScript(): Can't send the line [" ++ line
               ++ "] to the Wi-Fi script because there are no open connections to it.").

Definition sendHost (line : string) : M WiFi_Module unit :=
  this ← get;
  if (String.eqb this.(bridge_mode) "UART"
      || String.eqb this.(bridge_mode) "FLYOVER")
     && _uartSrvConnected this then
    sendTo_uartSrv line
  else if String.eqb this.(bridge_mode) "DEFAULT"
          || String.eqb this.(bridge_mode) "TREFOIL"
          || String.eqb this.(bridge_mode) "NONE" then
    let line := "HOST " ++ line in
    sendScript line
  else
    log ERROR ("WiFi_Module.sendHost():  I don't know any way to communicate "
               ++ "with the sensor host in the present briding mode.  Giving up.").

Definition isAt (ip : string) : M WiFi_Module unit := modify (set_ipaddr ip).

Definition isOn : M WiFi_Module unit := modify (set_status "ON").

Definition hasMac (mac : string) : M WiFi_Module unit :=
  modify (set_macaddr (Some mac)).

Definition bridgeMode_is (bmstr : string) : M WiFi_Module unit :=
  modify (set_bridge_mode bmstr);;
  this ← get;
  log NORMAL ("Node " ++ fmt_d this.(nodenum) ++ "'s bridge mode is now "
              ++ bmstr ++ ".").

Definition _setupAuxioServer : M WiFi_Module unit :=
  this ← get;
  match this.(auxioServer) with
  | None =>
      let base_auxio_port := LASER_PORT in
      let auxio_port := (base_auxio_port + this.(nodenum))%Z in
      log NORMAL ("Starting AUXIO server for node " ++ fmt_d this.(nodenum)
                  ++ " on port " ++ fmt_d auxio_port ++ "...");;
      let created := Bridge.init base_auxio_port this.(nodenum) "auxio" in
      emits (snd created);;
      let started := Bridge.start (fst created) in
      modify (set_auxioServer (Some (fst started)));;
      emits (snd started)
  | Some _ => skip
  end.

Definition _setupUartServer : M WiFi_Module unit :=
  this ← get;
  match this.(uartServer) with
  | None =>
      let base_uart_port := MESON_PORT in
      let uart_port := (base_uart_port + this.(nodenum))%Z in
      log NORMAL ("Starting UART server for node " ++ fmt_d this.(nodenum)
                  ++ " on port " ++ fmt_d uart_port ++ "...");;
      let created := Bridge.init base_uart_port this.(nodenum) "uart" in
      emits (snd created);;
      let srv := Bridge.addConnHandler "_UART_ConnHandler" (fst created) in
      let started := Bridge.start srv in
      modify (set_uartServer (Some (fst started)));;
      emits (snd started)
  | Some _ => skip
  end.

Definition _setupBridgeServers : M WiFi_Module unit :=
  this ← get;
  log DEBUG ("Setting up bridge servers for node " ++ fmt_d this.(nodenum) ++ "...");;
  _setupAuxioServer;;
  _setupUartServer.

Definition turnedOnAt (when : Z) : M WiFi_Module unit :=
  isOn;;
  modify (set_onAt (Some when));;
  modify (set_lastSeen (Some when));;
  this ← get;
  log DEBUG ("Setting up our servers to listen to bridges from node "
             ++ fmt_d this.(nodenum) ++ "...");;
  _setupBridgeServers.

End WiFi.

(** ** model.py: sensor nodes and the sensor net

    An attribute that [__init__] does not assign ([macaddr], [onAt],
    [lastSeen] of a node) is [None] here until it is first assigned.
    Time stamps are integers.  The [nodes] dictionary is a finite map
    together with its keys in insertion order, which is the order in
    which Python iterates over it. *)

Module Model.

Record SensorHost : Type := mkSensorHost {
  host_nodenum : Z;
  hostType : option string;
  sensorHostType : string;
  starting : bool;
  ready : bool
}.

(** [SensorHost.__init__] *)
Definition SensorHost_init (nodenum : Z) : SensorHost :=
  mkSensorHost nodenum None "UNKNOWN" false false.

Record SensorNode : Type := mkSensorNode {
  nodenum : Z;
  ipaddr : string;
  macaddr : option string;
  status : string;
  onAt : option Z;
  lastSeen : option Z;
  wifi_module : WiFi.WiFi_Module;
  sensor_host : SensorHost
}.

Definition set_ipaddr (v : string) (n : SensorNode) : SensorNode :=
  mkSensorNode n.(nodenum) v n.(macaddr) n.(status) n.(onAt) n.(lastSeen)
               n.(wifi_module) n.(sensor_host).
Definition set_macaddr (v : option string) (n : SensorNode) : SensorNode :=
  mkSensorNode n.(nodenum) n.(ipaddr) v n.(status) n.(onAt) n.(lastSeen)
               n.(wifi_module) n.(sensor_host).
Definition set_status (v : string) (n : SensorNode) : SensorNode :=
  mkSensorNode n.(nodenum) n.(ipaddr) n.(macaddr) v n.(onAt) n.(lastSeen)
               n.(wifi_module) n.(sensor_host).
Definition set_onAt (v : option Z) (n : SensorNode) : SensorNode :=
  mkSensorNode n.(nodenum) n.(ipaddr) n.(macaddr) n.(status) v n.(lastSeen)
               n.(wifi_module) n.(sensor_host).
Definition set_lastSeen (v : option Z) (n : SensorNode) : SensorNode :=
  mkSensorNode n.(nodenum) n.(ipaddr) n.(macaddr) n.(status) n.(onAt) v
               n.(wifi_module) n.(sensor_host).
Definition set_wifi_module (v : WiFi.WiFi_Module) (n : SensorNode) : SensorNode :=
  mkSensorNode n.(nodenum) n.(ipaddr) n.(macaddr) n.(status) n.(onAt)
               n.(lastSeen) v n.(sensor_host).

(** [SensorNode.__init__]: the new node and the header written to its log. *)
Definition SensorNode_init (num : Z) (ip : string) : SensorNode * list event :=
  (mkSensorNode num ip None "UNSEEN" None None
                (WiFi.init num ip) (SensorHost_init num),
   [NodeLog num NORMAL "|------------------------------------------------------------|";
    NodeLog num NORMAL ("|  Node " ++ fmt_d num
                        ++ " log started.                                       |");
    NodeLog num NORMAL "|VVVVVVVVVVVVVVVVVVVVVVVVVVVVVVVVVVVVVVVVVVVVVVVVVVVVVVVVVVVV|"]).

(** A call [self.wifi_module.m(...)]. *)
Definition on_wifi {A} (m : M WiFi.WiFi_Module A) : M SensorNode A :=
  zoom wifi_module set_wifi_module m.

Definition reloc (ip : string) : M SensorNode unit :=
  modify (set_ipaddr ip);;
  on_wifi (WiFi.isAt ip).

Definition isOn : M SensorNode unit := modify (set_status "ON").

Definition turnOn (when : Z) : M SensorNode unit :=
  self ← get;
  log NORMAL ("Node " ++ fmt_d self.(nodenum) ++ " turned on at "
              ++ fmt_d when ++ ".");;
  isOn;;
  modify (set_onAt (Some when));;
  modify (set_lastSeen (Some when));;
  on_wifi (WiFi.turnedOnAt when).

Definition sawAt (when : Z) : M SensorNode unit :=
  modify (set_lastSeen (Some when));;
  self ← get;
  if String.eqb self.(status) "ON_AWOL" then modify (set_status "ON")
  else if String.eqb self.(status) "RUNNING_AWOL" then
    modify (set_status "RUNNING")
  else skip.

Definition setMac (mac : string) : M SensorNode unit :=
  self ← get;
  log NORMAL ("Node " ++ fmt_d self.(nodenum) ++ " reports its MAC address is "
              ++ mac ++ ".");;
  modify (set_macaddr (Some mac));;
  on_wifi (WiFi.hasMac mac).

Record SensorNet : Type := mkSensorNet {
  nodes : gmap Z SensorNode;
  order : list Z
}.

(** [SensorNet.__init__] *)
Definition SensorNet_init : SensorNet := mkSensorNet ∅ [].

(** A call [self.nodes[id].m(...)]. *)
Definition on_node {A} (id : Z) (m : M SensorNode A) : M SensorNet A :=
  mkM (fun net =>
    match net.(nodes) !! id with
    | None => (Raises KeyError, net, [])
    | Some node =>
        let x := run m node in
        (outcome_of x,
         mkSensorNet (<[id := state_of x]> net.(nodes)) net.(order),
         trace_of x)
    end).

(** [self.nodes[id] = node] *)
Definition set_node (id : Z) (node : SensorNode) (net : SensorNet) : SensorNet :=
  mkSensorNet (<[id := node]> net.(nodes))
              (if isSome (net.(nodes) !! id) then net.(order)
               else (net.(order) ++ [id])%list).

Fixpoint first_with_ip (nodes : gmap Z SensorNode) (ip : string)
         (keys : list Z) : option Z :=
  match keys with
  | [] => None
  | id :: rest =>
      match nodes !! id with
      | Some node =>
          if String.eqb node.(ipaddr) ip then Some id
          else first_with_ip nodes ip rest
      | None => first_with_ip nodes ip rest
      end
  end.

Definition nodeWithIP (ip : string) (self : SensorNet) : option Z :=
  first_with_ip self.(nodes) ip self.(order).

Definition nodeAt (id : Z) (ip : string) : M SensorNet unit :=
  self ← get;
  match self.(nodes) !! id with
  | Some node =>
      if String.eqb ip node.(ipaddr) then
        log NORMAL ("Existing node " ++ fmt_d id ++ " at " ++ ip
                    ++ " was powered on again.")
      else
        log WARNING ("Existing node " ++ fmt_d id
                     ++ " has powered on from a new IP address " ++ ip ++ ".");;
        log WARNING "...(This could happen, for example, if its DHCP lease changed.)";;
        match nodeWithIP ip self with
        | Some other =>
            log WARNING ("Another node " ++ fmt_d other
                         ++ " in our list is already using IP " ++ ip ++ "!")
        | None => skip
        end;;
        on_node id (reloc ip)
  | None =>
      log NORMAL ("New node " ++ fmt_d id ++ " seen at IP address " ++ ip ++ ".");;
      match nodeWithIP ip self with
      | Some other =>
          log WARNING ("Another node " ++ fmt_d other
                       ++ " in our list is already using IP " ++ ip
                       ++ "!  Replacing it...")
      | None => skip
      end;;
      let created := SensorNode_init id ip in
      emits (snd created);;
      modify (set_node id (fst created))
  end.

Definition verifyNode (id : Z) (ip : string) (when : Z) : M SensorNet unit :=
  self ← get;
  (if negb (isSome (self.(nodes) !! id)) then
     log WARNING ("Received a request from " ++ ip
                  ++ " claiming to be from node " ++ fmt_d id ++ ",");;
     log WARNING "	but there is no node with that number in our list!";;
     log WARNING "	Going ahead and adding it...";;
     nodeAt id ip
   else skip);;
  self ← get;
  match self.(nodes) !! id with
  | None => raise AssertionError
  | Some node =>
      (if negb (String.eqb node.(ipaddr) ip) then
         log WARNING ("Received a request from " ++ ip
                      ++ " claiming to be from node " ++ fmt_d id ++ ",");;
         log WARNING ("	but the IP address we have on file for that node is "
                      ++ node.(ipaddr) ++ "!")
       else if String.eqb node.(status) "UNSEEN" then
         log WARNING ("Received a request from " ++ ip
                      ++ " claiming to be from node " ++ fmt_d id ++ ",");;
         log WARNING "	but we haven't even seen that node's power-on message yet!";;
         on_node id isOn
       else skip);;
      on_node id (sawAt when)
  end.

Definition logNode (num : Z) : M SensorNet unit :=
  let compName := "node #" ++ fmt_d num in
  emit (Component compName).

(** [SensorNet.__str__]; reading [node.macaddr] before it was ever
    assigned raises [AttributeError]. *)
Fixpoint str_items (nodes : gmap Z SensorNode) (keys : list Z)
         (str : string) : result string :=
  match keys with
  | [] => Returns str
  | id :: rest =>
      match nodes !! id with
      | None => str_items nodes rest str
      | Some node =>
          match node.(macaddr) with
          | None => Raises AttributeError
          | Some mac =>
              str_items nodes rest
                (str ++ "#" ++ fmt_d id ++ "(" ++ node.(ipaddr) ++ "/" ++ mac
                     ++ "): " ++ node.(status) ++ "; ")
          end
      end
  end.

Definition __str__ (self : SensorNet) : result string :=
  str_items self.(nodes) self.(order) "".

Definition nodeOn (num : Z) (ip mac : string) (when : Z) : M SensorNet unit :=
  logNode num;;
  log DEBUG ("SensorNet.nodeOn(): Noting that node " ++ fmt_d num
             ++ " powered on at IP address " ++ ip ++ " and MAC address "
             ++ mac ++ " at " ++ fmt_d when ++ ".");;
  nodeAt num ip;;
  on_node num (setMac mac);;
  on_node num (turnOn when);;
  self ← get;
  match __str__ self with
  | Returns s => log DEBUG ("New node list: [" ++ s ++ "]")
  | Raises e => raise e
  end.

End Model.

(** ** model.py: parsing a message from the sensor host *)

Module Host.

(** Modelled from the spec: [utils.unsplit], which is not among the
    sources; the spec has the trailing comma-split tokens "rejoined",
    so [unsplit(words, sep)] is [sep.join(words)]. *)
Definition unsplit (words : list string) (sep : string) : string :=
  PyStr.join sep words.

(** [SensorHost._parseMsg]: [None], or the words of the message. *)
Definition _parseMsg {S} (msg_data : string) : M S (option (list string)) :=
  let msgStr := msg_data in
  let msgStr := PyStr.strip msgStr in
  if String.eqb msgStr "" then
    log INFO "SensorHost._parseMsg(): Given empty message; ignoring...";;
    mret None
  else
    match Nmea.stripNMEA msgStr with
    | Raises BadChecksum =>
        log ERROR ("SensorHost._parseMsg(): Checksum failed on line ["
                   ++ msgStr ++ "]; ignoring line...");;
        mret None
    | Raises e => raise e
    | Returns msgStr =>
        log DEBUG ("SensorHost._parseMsg(): After stripping any NMEA framing I got the message ["
                   ++ msgStr ++ "].");;
        if String.eqb msgStr "" then
          log WARNING "SensorHost._parseMsg(): Message empty after stripping away NMEA framing; ignoring...";;
          mret None
        else
          let msgStr :=
            if PyStr.startswith "PDMEHEADER" msgStr
            then PyStr.replace2 ":" " " "," msgStr else msgStr in
          let msgWords := PyStr.split_on "," msgStr in
          let msgWords :=
            if PyStr.startswith "CON_PULSE" msgStr
            then (firstn 7 msgWords ++ [unsplit (skipn 7 msgWords) ","])%list
            else msgWords in
          mret (Some msgWords)
    end.

(** The lines of one connection parsed in turn by its reader; the
    reader stops at the first exception that escapes. *)
Fixpoint parse_lines {S} (lines : list string) : M S (list (option (list string))) :=
  match lines with
  | [] => mret []
  | line :: rest =>
      w ← _parseMsg line;
      ws ← parse_lines rest;
      mret (w :: ws)
  end.

End Host.

(** ** commands.py: parsing and handling command lines

    A message carries its text, the sender's IP address and its time of
    arrival.  The connection it came over has no terminal widget. *)

Module Commands.

Record Message : Type := mkMessage {
  data : string;
  sender_ip : string;
  time : Z
}.

(** [nodeNum] is [None] until [parseNodeNum] assigns the attribute. *)
Record Command : Type := mkCommand {
  msg : Message;
  cmdString : string;
  cmdWords : list string;
  cmdName : string;
  cmdArgs : list string;
  nodeNum : option Z
}.

Definition set_cmdArgs (v : list string) (c : Command) : Command :=
  mkCommand c.(msg) c.(cmdString) c.(cmdWords) c.(cmdName) v c.(nodeNum).
Definition set_nodeNum (v : option Z) (c : Command) : Command :=
  mkCommand c.(msg) c.(cmdString) c.(cmdWords) c.(cmdName) c.(cmdArgs) v.

(** [Command.__init__] *)
Definition Command_init (msg : Message) : result Command :=
  let cmdString := PyStr.strip msg.(data) in
  let cmdWords := PyStr.split cmdString in
  match cmdWords with
  | [] => Raises EmptyCommand
  | cmdName :: cmdArgs =>
      Returns (mkCommand msg cmdString cmdWords cmdName cmdArgs None)
  end.

Definition exn_name (e : exn) : string :=
  match e with
  | BadChecksum => "BadChecksum"
  | ValueError => "ValueError"
  | IndexError => "IndexError"
  | TypeError => "TypeError"
  | KeyError => "KeyError"
  | AttributeError => "AttributeError"
  | AssertionError => "AssertionError"
  | EmptyCommand => "EmptyCommand"
  end.

(** Reading [cmd.nodeNum]. *)
Definition get_nodeNum {S} (cmd : Command) : M S Z :=
  match cmd.(nodeNum) with
  | Some n => mret n
  | None => raise AttributeError
  end.

(** The handlers work on the sensor net; [parseNodeNum] works on the
    command object. *)
Definition parseNodeNum : M Command (option Z) :=
  cmd ← get;
  match cmd.(cmdArgs) with
  | [] =>
      log ERROR "CommandHandler.parseNodeNum(): I expected this command to have at least one argument, a node number.  It doesn't.";;
      mret None
  | first :: rest =>
      match PyStr.int_base10 first with
      | Raises _ =>
          log ERROR "CommandHandler.parseNodeNum(): I expected the first argument to this command to be a node number, an integer.  It isn't.  Using -1 instead.";;
          modify (set_nodeNum (Some (-1)%Z));;
          mret None
      | Returns n =>
          modify (set_nodeNum (Some n));;
          emit (Component ("node#" ++ fmt_d n));;
          modify (set_cmdArgs rest);;
          mret (Some n)
      end
  end.

Definition handleNodeOn (cmd : Command) : M Model.SensorNet unit :=
  match cmd.(cmdArgs) with
  | [arg_ipaddr; arg_mac] =>
      let sender_ip := cmd.(msg).(sender_ip) in
      (if negb (String.eqb arg_ipaddr sender_ip) then
         num ← get_nodeNum cmd;
         log WARNING ("Node " ++ fmt_d num ++ "'s self-reported IP address "
                      ++ arg_ipaddr ++ " does not match actual IP address "
                      ++ sender_ip ++ " of message sender!?  Using it anyway...")
       else skip);;
      num ← get_nodeNum cmd;
      Model.nodeOn num arg_ipaddr arg_mac cmd.(msg).(time)
  | args =>
      log ERROR ("POWERED_ON has " ++ fmt_d (Z.of_nat (List.length args))
                 ++ " arguments after node number; 2 were expected.  Ignoring command.");;
      match args with
      | [] => skip
      | first :: _ =>
          log DEBUG ("	handleNodeOn: Arg #0 is: " ++ first ++ ".");;
          raise TypeError
      end
  end.

Definition handleHeartbeat (cmd : Command) : M Model.SensorNet unit :=
  match cmd.(cmdArgs) with
  | [arg] =>
      arg_nodenum ← get_nodeNum cmd;
      match PyStr.int_base10 arg with
      | Raises e => raise e
      | Returns arg_hbnum =>
          Model.verifyNode arg_nodenum cmd.(msg).(sender_ip) cmd.(msg).(time);;
          log NORMAL ("Heartbeat #" ++ fmt_d arg_hbnum ++ " received from node "
                      ++ fmt_d arg_nodenum ++ " at " ++ fmt_d cmd.(msg).(time)
                      ++ ".")
      end
  | args =>
      log ERROR ("HEARTBEAT has " ++ fmt_d (Z.of_nat (List.length args))
                 ++ " arguments after node id; 1 was expected.  Ignoring command.")
  end.

Definition handleBridgeMode (cmd : Command) : M Model.SensorNet unit :=
  (if negb (List.length cmd.(cmdArgs) =? 1)%nat then
     log ERROR ("BRIDGE_MODE has " ++ fmt_d (Z.of_nat (List.length cmd.(cmdArgs)))
                ++ " arguments after node id; 1 was expected.  Ignoring command.")
   else skip);;
  arg_nodenum ← get_nodeNum cmd;
  match cmd.(cmdArgs) with
  | [] => raise IndexError
  | arg_bmstr :: _ =>
      Model.verifyNode arg_nodenum cmd.(msg).(sender_ip) cmd.(msg).(time);;
      log NORMAL ("Node " ++ fmt_d arg_nodenum
                  ++ " reports that its bridging mode has changed to "
                  ++ arg_bmstr ++ ".");;
      let model_bm :=
        if String.eqb arg_bmstr "NORMAL" then "DEFAULT"
        else if String.eqb arg_bmstr "UART-ONLY" then "UART"
        else if String.eqb arg_bmstr "NONE" || String.eqb arg_bmstr "TREFOIL"
                || String.eqb arg_bmstr "FLYOVER" then arg_bmstr
        else "UNSUPPORTED" in
      Model.on_node arg_nodenum (Model.on_wifi (WiFi.bridgeMode_is arg_bmstr))
  end.

Fixpoint repeat_str (s : string) (n : nat) : string :=
  match n with
  | O => ""
  | S k => s ++ repeat_str s k
  end.

Definition handleLogMsg (cmd : Command) : M Model.SensorNet unit :=
  match cmd.(cmdArgs) with
  | arg_level :: arg_depth :: words =>
      match words with
      | [] =>
          log ERROR "LOGMSG has 2 arguments after node id; at least 3 were expected.  Ignoring command."
      | _ :: _ =>
          if String.eqb arg_level "(unset)" then
            log ERROR "Received LOGMSG from node with unset node ID.  Ignoring."
          else
            arg_nodenum ← get_nodeNum cmd;
            match PyStr.int_base10 arg_depth with
            | Raises e => raise e
            | Returns arg_depth =>
                let arg_logmsg := PyStr.join " " words in
                Model.verifyNode arg_nodenum cmd.(msg).(sender_ip)
                                 cmd.(msg).(time);;
                let arg_logmsg :=
                  ("Node " ++ fmt_d arg_nodenum ++ ": ")
                  ++ repeat_str "  " (Z.to_nat arg_depth) ++ arg_logmsg in
                self ← get;
                if isSome (Model.nodes self !! arg_nodenum) then
                  emit (NodeLogNamed arg_nodenum arg_level arg_logmsg)
                else raise TypeError
            end
      end
  | args =>
      log ERROR ("LOGMSG has " ++ fmt_d (Z.of_nat (List.length args))
                 ++ " arguments after node id; at least 3 were expected.  Ignoring command.")
  end.

Definition dispatch_command (cmd : Command) : M Model.SensorNet unit :=
  if String.eqb cmd.(cmdName) "POWERED_ON" then handleNodeOn cmd
  else if String.eqb cmd.(cmdName) "LOGMSG" then handleLogMsg cmd
  else if String.eqb cmd.(cmdName) "HEARTBEAT" then handleHeartbeat cmd
  else if String.eqb cmd.(cmdName) "BRIDGE_MODE" then handleBridgeMode cmd
  else if String.eqb cmd.(cmdName) "PONG" then
    log WARNING "Command PONG not yet implemented; ignoring."
  else if String.eqb cmd.(cmdName) "FEDM_POWERUP" then
    log WARNING "Command FEDM_POWERUP not yet implemented; ignoring."
  else if String.eqb cmd.(cmdName) "FEDM_HEARTBEAT" then
    log WARNING "Command FEDM_HEARTBEAT not yet implemented; ignoring."
  else if String.eqb cmd.(cmdName) "1ST_SYNC" then
    log WARNING "Command 1ST_SYNC not yet implemented; ignoring."
  else if String.eqb cmd.(cmdName) "PULSE_DATA" then
    log WARNING "Command PULSE_DATA not yet implemented; ignoring."
  else if String.eqb cmd.(cmdName) "MISSING_SYNCS" then
    log WARNING "Command MISSING_SYNCS not yet implemented; ignoring."
  else if String.eqb cmd.(cmdName) "CALIBRATE_TIMING" then
    log WARNING "Command CALIBRATE_TIMING not yet implemented; ignoring."
  else
    log ERROR ("CommandHandler.dispatchCommand(): Received unknown command word '"
               ++ cmd.(cmdName) ++ "'; ignoring.").

(** [CommandHandler.process], run in the handler's own thread. *)
Definition process (msg : Message) : M Model.SensorNet unit :=
  match Command_init msg with
  | Raises _ =>
      log INFO ("CommandHandler.process(): Ignoring empty command ["
                ++ msg.(data) ++ "].")
  | Returns cmd =>
      let parsed := run parseNodeNum cmd in
      emits (trace_of parsed);;
      let cmd := state_of parsed in
      try_except (dispatch_command cmd)
        (fun e =>
           log ERROR ("CommandHandler.process(): Caught an exception ["
                      ++ exn_name e ++ "] while dispatching command ["
                      ++ cmd.(cmdString) ++ "].  Ignoring."));;
      emit (Component "server")
  end.

(** Processing a sequence of lines received from one address. *)
Fixpoint process_all (ip : string) (lines : list (Z * string))
  : M Model.SensorNet unit :=
  match lines with
  | [] => skip
  | (t, line) :: rest => process (mkMessage line ip t);; process_all ip rest
  end.

(** The table that [handleBridgeMode] computes into [model_bm]. *)
Definition model_bridge_mode (arg_bmstr : string) : string :=
  if String.eqb arg_bmstr "NORMAL" then "DEFAULT"
  else if String.eqb arg_bmstr "UART-ONLY" then "UART"
  else if String.eqb arg_bmstr "NONE" || String.eqb arg_bmstr "TREFOIL"
          || String.eqb arg_bmstr "FLYOVER" then arg_bmstr
  else "UNSUPPORTED".

(** The node's stored bridge mode, if the node is registered. *)
Definition bridgeMode_of (num : Z) (net : Model.SensorNet) : option string :=
  node ← Model.nodes net !! num;
  Some (WiFi.bridge_mode (Model.wifi_module node)).

End Commands.

(* ===================================================================== *)
(** * Properties *)
(* ===================================================================== *)

(** ** nmea.py: worked sentences *)

Example makeNMEA_hot_start :
  Nmea.makeNMEA "PDME,2" true = "$PDME,2*02".
Proof. reflexivity. Qed.

Example stripNMEA_hot_start :
  Nmea.stripNMEA "$PDME,2*02" = Returns "PDME,2".
Proof. reflexivity. Qed.

Example stripNMEA_bad :
  Nmea.stripNMEA "$PDME,2*03" = Raises BadChecksum.
Proof. reflexivity. Qed.

Example stripNMEA_upper :
  Nmea.stripNMEA "$j*6A" = Returns "j".
Proof. reflexivity. Qed.

Example stripNMEA_nothex :
  Nmea.stripNMEA "$PDME,2*zz" = Raises ValueError.
Proof. reflexivity. Qed.

(** ** nmea.py: string lemmas *)

Section StringFacts.

Lemma length_app (s t : string) :
  String.length (s ++ t) = (String.length s + String.length t)%nat.
Proof. induction s as [|c s IH]; simpl; [reflexivity | now rewrite IH]. Qed.

Lemma get_app_length (s : string) (c : ascii) (t : string) :
  String.get (String.length s) (s ++ String c t) = Some c.
Proof. induction s as [|d s IH]; simpl; [reflexivity | exact IH]. Qed.

Lemma substring_app_prefix (s t : string) :
  String.substring 0 (String.length s) (s ++ t) = s.
Proof.
  induction s as [|c s IH]; simpl.
  - destruct t; reflexivity.
  - now rewrite IH.
Qed.

Lemma substring_app_skip (s t : string) (k n : nat) :
  String.substring (String.length s + k) n (s ++ t) = String.substring k n t.
Proof. induction s as [|c s IH]; simpl; [reflexivity | exact IH]. Qed.

Lemma flip_at_app (s t : string) (i : nat) (k : N) :
  PyStr.flip_at (String.length s + i) k (s ++ t) = s ++ PyStr.flip_at i k t.
Proof. induction s as [|c s IH]; simpl; [reflexivity | now rewrite IH]. Qed.

End StringFacts.

(** ** nmea.py: the checksum is one byte *)

Section ChecksumRange.

Lemma lxor_below_256 (a b : N) :
  (a < 256)%N -> (b < 256)%N -> (N.lxor a b < 256)%N.
Proof.
  intros Ha Hb.
  destruct (N.eq_dec (N.lxor a b) 0%N) as [E|E]; [rewrite E; lia|].
  change 256%N with (2 ^ 8)%N.
  apply N.log2_lt_pow2; [lia|].
  pose proof (N.log2_lxor a b) as Hl.
  assert (N.log2 a < 8)%N.
  { destruct (N.eq_dec a 0%N) as [->|]; [vm_compute; reflexivity|].
    apply N.log2_lt_pow2; [lia | exact Ha]. }
  assert (N.log2 b < 8)%N.
  { destruct (N.eq_dec b 0%N) as [->|]; [vm_compute; reflexivity|].
    apply N.log2_lt_pow2; [lia | exact Hb]. }
  lia.
Qed.

Lemma encode_char_below_256 (c : ascii) :
  Forall (fun b => (b < 256)%N) (PyStr.encode_char c).
Proof.
  destruct c as [[] [] [] [] [] [] [] []]; vm_compute;
    repeat constructor.
Qed.

Lemma encode_below_256 (s : string) :
  Forall (fun b => (b < 256)%N) (PyStr.encode s).
Proof.
  induction s as [|c s IH]; simpl; [constructor|].
  apply Forall_app; split; [apply encode_char_below_256 | exact IH].
Qed.

Lemma fold_lxor_below_256 (l : list N) (a : N) :
  (a < 256)%N -> Forall (fun b => (b < 256)%N) l ->
  (fold_left N.lxor l a < 256)%N.
Proof.
  revert a; induction l as [|b l IH]; intros a Ha Hl; simpl; [exact Ha|].
  inversion Hl; subst. apply IH; [apply lxor_below_256|]; assumption.
Qed.

Lemma calcCRC_below_256 (s : string) : (Nmea.calcCRC s < 256)%N.
Proof.
  unfold Nmea.calcCRC. apply fold_lxor_below_256; [lia|].
  apply encode_below_256.
Qed.

(** A property checked on every byte value holds of every byte. *)
Lemma forall_bytes (P : N -> bool) :
  forallb P (map N.of_nat (seq 0 256)) = true ->
  forall n, (n < 256)%N -> P n = true.
Proof.
  intros H n Hn. rewrite forallb_forall in H. apply H.
  apply in_map_iff. exists (N.to_nat n). split; [lia|].
  apply in_seq. lia.
Qed.

End ChecksumRange.

(** ** nmea.py: round trip and corrupted checksum fields *)

Section NmeaRoundTrip.
Import PyStr Nmea.

(** What [stripNMEA] does with a framed sentence whose checksum field
    is the two characters [a], [b]. *)
Definition verdict (s : string) (a b : ascii) : result string :=
  match int_base16 (String a (String b "")) with
  | Raises e => Raises e
  | Returns v =>
      if (Z.of_N (calcCRC s) =? v)%Z then Returns s else Raises BadChecksum
  end.

Lemma length_framed (s : string) (c a b : ascii) :
  String.length (s ++ String c (String a (String b "")))
  = (String.length s + 3)%nat.
Proof. now rewrite length_app. Qed.

Lemma getCRC_framed (s : string) (a b : ascii) :
  getCRC (s ++ String "*" (String a (String b "")))
  = (v ← int_base16 (String a (String b "")); Returns (Some v)).
Proof.
  unfold getCRC, from_end, last_two. rewrite length_framed.
  replace (String.length s + 3 <? 3)%nat with false
    by (symmetry; apply Nat.ltb_ge; lia).
  replace (String.length s + 3 - 3)%nat with (String.length s) by lia.
  replace (String.length s + 3 - 2)%nat with (String.length s + 1)%nat by lia.
  rewrite get_app_length, substring_app_skip. reflexivity.
Qed.

Lemma drop_last3_framed (s : string) (c a b : ascii) :
  drop_last3 (s ++ String c (String a (String b ""))) = s.
Proof.
  unfold drop_last3. rewrite length_framed.
  replace (String.length s + 3 - 3)%nat with (String.length s) by lia.
  apply substring_app_prefix.
Qed.

Lemma stripNMEA_framed (s : string) (a b : ascii) :
  stripNMEA ("$" ++ s ++ "*" ++ String a (String b "")) = verdict s a b.
Proof.
  change ("$" ++ s ++ "*" ++ String a (String b ""))
    with (String "$" (s ++ String "*" (String a (String b "")))).
  unfold stripNMEA, verdict.
  change (isNMEA (String "$" (s ++ String "*" (String a (String b "")))))
    with true.
  cbn [negb drop_first]. rewrite getCRC_framed, drop_last3_framed.
  destruct (int_base16 (String a (String b ""))) as [v|e];
    [|reflexivity].
  cbn. destruct (Z.of_N (calcCRC s) =? v)%Z; reflexivity.
Qed.

(** The field written by [makeNMEA] is two characters that read back
    as the checksum. *)
Definition field_ok (n : N) : bool :=
  match fmt_02x n with
  | String a (String b EmptyString) =>
      match int_base16 (String a (String b "")) with
      | Returns v => (v =? Z.of_N n)%Z
      | Raises _ => false
      end
  | _ => false
  end.

Lemma field_ok_all (n : N) : (n < 256)%N -> field_ok n = true.
Proof. apply forall_bytes. vm_compute. reflexivity. Qed.

Lemma fmt_02x_two (n : N) :
  (n < 256)%N ->
  exists a b, fmt_02x n = String a (String b "")
              /\ int_base16 (String a (String b "")) = Returns (Z.of_N n).
Proof.
  intros Hn. pose proof (field_ok_all n Hn) as H. unfold field_ok in H.
  destruct (fmt_02x n) as [|a [|b [|c r]]]; try discriminate.
  exists a, b. split; [reflexivity|].
  destruct (int_base16 (String a (String b ""))) as [v|e]; [|discriminate].
  apply Z.eqb_eq in H. now subst.
Qed.

Lemma stripNMEA_makeNMEA (s : string) :
  stripNMEA (makeNMEA s true) = Returns s.
Proof.
  unfold makeNMEA.
  destruct (fmt_02x_two (calcCRC s) (calcCRC_below_256 s)) as (a & b & Hf & Hi).
  rewrite Hf, stripNMEA_framed. unfold verdict. rewrite Hi.
  now rewrite Z.eqb_refl.
Qed.

(** The outcome of reading the field of checksum [n] after flipping
    bit [k] of its character [pos], classified: [Some true] when the
    sentence is accepted, [Some false] when an exception is raised. *)
Definition flip_outcome (n : N) (pos : nat) (k : N) : option bool :=
  match flip_at pos k (fmt_02x n) with
  | String a (String b EmptyString) =>
      match int_base16 (String a (String b "")) with
      | Returns v => Some (v =? Z.of_N n)%Z
      | Raises ValueError => Some false
      | Raises _ => None
      end
  | _ => None
  end.

Definition flip_classified (n : N) : bool :=
  forallb (fun pos =>
    forallb (fun k =>
      match flip_outcome n pos k with
      | Some b => Bool.eqb b (harmless_flip (fmt_02x n) pos k)
      | None => false
      end) (map N.of_nat (seq 0 8)))
    (seq 0 2).

Lemma flip_classified_all (n : N) : (n < 256)%N -> flip_classified n = true.
Proof. apply forall_bytes. vm_compute. reflexivity. Qed.

Lemma flip_outcome_spec (n : N) (pos : nat) (k : N) :
  (n < 256)%N -> (pos < 2)%nat -> (k < 8)%N ->
  flip_outcome n pos k = Some (harmless_flip (fmt_02x n) pos k).
Proof.
  intros Hn Hp Hk. pose proof (flip_classified_all n Hn) as H.
  unfold flip_classified in H. rewrite forallb_forall in H.
  specialize (H pos). rewrite in_seq in H. specialize (H ltac:(lia)).
  rewrite forallb_forall in H. specialize (H k).
  assert (In k (map N.of_nat (seq 0 8))) as Hin.
  { apply in_map_iff. exists (N.to_nat k). split; [lia|]. apply in_seq. lia. }
  specialize (H Hin).
  destruct (flip_outcome n pos k) as [b|]; [|discriminate].
  apply Bool.eqb_prop in H. now subst.
Qed.

Lemma corrupt_checksum_framed (s : string) (pos : nat) (k : N) :
  corrupt_checksum s pos k
  = "$" ++ s ++ "*" ++ flip_at pos k (fmt_02x (calcCRC s)).
Proof.
  unfold corrupt_checksum, makeNMEA.
  replace (String.length s + 2 + pos)%nat
    with (S (String.length s + S pos)) by lia.
  change ("$" ++ s ++ "*" ++ fmt_02x (calcCRC s))
    with (String "$" (s ++ String "*" (fmt_02x (calcCRC s)))).
  cbn [flip_at]. now rewrite flip_at_app.
Qed.

Lemma stripNMEA_corrupt (s : string) (pos : nat) (k : N) :
  (pos < 2)%nat -> (k < 8)%N ->
  if harmless_flip (fmt_02x (calcCRC s)) pos k
  then stripNMEA (corrupt_checksum s pos k) = Returns s
  else stripNMEA (corrupt_checksum s pos k) = Raises BadChecksum
       \/ stripNMEA (corrupt_checksum s pos k) = Raises ValueError.
Proof.
  intros Hp Hk.
  pose proof (flip_outcome_spec (calcCRC s) pos k
                (calcCRC_below_256 s) Hp Hk) as H.
  rewrite corrupt_checksum_framed. unfold flip_outcome in H.
  destruct (flip_at pos k (fmt_02x (calcCRC s))) as [|a [|b [|c r]]];
    try discriminate.
  rewrite stripNMEA_framed. unfold verdict.
  destruct (int_base16 (String a (String b ""))) as [v|e].
  - injection H as H. rewrite <- H. rewrite Z.eqb_sym.
    destruct (Z.of_N (calcCRC s) =? v)%Z; [reflexivity | now left].
  - destruct e; try discriminate; injection H as H; rewrite <- H; now right.
Qed.

End NmeaRoundTrip.

(** C7, as amended.  For every string [s] (so in particular for every
    [s] without ['$'] and ['*']), [stripNMEA (makeNMEA s True)] returns
    exactly [s].  Flipping one bit [k] of character [pos] of the
    two-character checksum field makes [stripNMEA] raise [BadChecksum]
    or [ValueError], except for the flips that leave the number read
    from the field unchanged (a letter [a]..[f] capitalised, a ["0"]
    turned into a blank next to a digit that alone gives the same
    value): after those [stripNMEA] still returns [s]. *)
Theorem nmea_round_trip_and_flipped_checksum
        (s : string) (pos : nat) (k : N) :
  (pos < 2)%nat -> (k < 8)%N ->
  Nmea.stripNMEA (Nmea.makeNMEA s true) = Returns s
  /\ if Nmea.harmless_flip (PyStr.fmt_02x (Nmea.calcCRC s)) pos k
     then Nmea.stripNMEA (Nmea.corrupt_checksum s pos k) = Returns s
     else Nmea.stripNMEA (Nmea.corrupt_checksum s pos k) = Raises BadChecksum
          \/ Nmea.stripNMEA (Nmea.corrupt_checksum s pos k) = Raises ValueError.
Proof.
  intros Hp Hk. split.
  - apply stripNMEA_makeNMEA.
  - apply stripNMEA_corrupt; assumption.
Qed.

Lemma nmea_round_trip_and_flipped_checksum_witness :
  (0 < 2)%nat /\ (0 < 8)%N
  /\ Nmea.stripNMEA (Nmea.makeNMEA "GPRMC,1" true) = Returns "GPRMC,1"
  /\ (Nmea.stripNMEA (Nmea.corrupt_checksum "GPRMC,1" 0 0) = Raises BadChecksum
      \/ Nmea.stripNMEA (Nmea.corrupt_checksum "GPRMC,1" 0 0) = Raises ValueError).
Proof.
  split; [lia|]. split; [lia|].
  exact (nmea_round_trip_and_flipped_checksum "GPRMC,1" 0%nat 0%N
           ltac:(lia) ltac:(lia)).
Defined.

(** C7 as stated fails: the sentence for ["j"] is ["$j*6a"]; flipping
    bit 5 of the second checksum character gives ["$j*6A"], which
    [stripNMEA] accepts, returning ["j"], although ["j"] has neither
    ['$'] nor ['*']. *)
Lemma flipped_checksum_bit_accepted :
  ~ (forall (s : string) (pos : nat) (k : N),
        Nmea.no_dollar_star s = true -> (pos < 2)%nat -> (k < 8)%N ->
        exists e, Nmea.stripNMEA (Nmea.corrupt_checksum s pos k) = Raises e).
Proof.
  intros H.
  destruct (H "j" 1%nat 5%N eq_refl ltac:(lia) ltac:(lia)) as [e He].
  vm_compute in He. discriminate He.
Qed.

Example corrupt_checksum_j :
  Nmea.makeNMEA "j" true = "$j*6a"
  /\ Nmea.corrupt_checksum "j" 1 5 = "$j*6A"
  /\ Nmea.stripNMEA "$j*6A" = Returns "j".
Proof. repeat split. Qed.

(** ** publisher.py *)

Section PublisherFacts.
Import Publisher.

Lemma subscribers_hasTitle (t t' : string) (subs : subscriptions) :
  subscribers t' (hasTitle t subs) = subscribers t' subs.
Proof.
  unfold subscribers, hasTitle.
  destruct (subs !! t) as [l|] eqn:E; [reflexivity|].
  destruct (decide (t = t')) as [->|Hne].
  - now rewrite lookup_insert_eq, E.
  - now rewrite lookup_insert_ne.
Qed.

Lemma subscribers_subscribe_eq (c : address) (t : string) (subs : subscriptions) :
  subscribers t (subscribe c t subs) = (subscribers t subs ++ [c])%list.
Proof.
  unfold subscribe. unfold subscribers at 1.
  now rewrite lookup_insert_eq, subscribers_hasTitle.
Qed.

Lemma subscribers_subscribe_ne (c : address) (t t' : string) (subs : subscriptions) :
  t <> t' -> subscribers t' (subscribe c t subs) = subscribers t' subs.
Proof.
  intros Hne. unfold subscribe. unfold subscribers at 1.
  rewrite lookup_insert_ne by exact Hne.
  apply subscribers_hasTitle.
Qed.

Lemma publish_deliveries (i : Issue) (subs : subscriptions) :
  snd (publish i subs)
  = map (deliver i) (subscribers (title i) subs ++ subscribers "__ALL__" subs)%list.
Proof.
  unfold publish. cbv zeta. cbn [snd]. now rewrite !subscribers_hasTitle.
Qed.

Lemma count_deliveries (i : Issue) (c : address) (l : list address) :
  count_occ Nat.eq_dec (map fst (map (deliver i) l)) c = count_occ Nat.eq_dec l c.
Proof.
  rewrite List.map_map. unfold deliver. cbn [fst]. now rewrite List.map_id.
Qed.

Lemma calls_count (c : address) (i : Issue) (subs : subscriptions) :
  calls c i subs
  = (count_occ Nat.eq_dec (subscribers (title i) subs) c
     + count_occ Nat.eq_dec (subscribers "__ALL__" subs) c)%nat.
Proof.
  unfold calls. now rewrite publish_deliveries, count_deliveries, count_occ_app.
Qed.

Lemma count_occ_snoc (c : address) (l : list address) :
  count_occ Nat.eq_dec (l ++ [c]) c = S (count_occ Nat.eq_dec l c).
Proof.
  rewrite count_occ_app.
  rewrite (count_occ_cons_eq Nat.eq_dec [] (eq_refl c)).
  cbn [count_occ]. lia.
Qed.

End PublisherFacts.




Example publish_wildcard_title :
  Publisher.calls 7 (Publisher.mkIssue "__ALL__" 1)
    (Publisher.subscribeAll 7
       (Publisher.subscribe 7 "__ALL__" Publisher.init)) = 4.
Proof. reflexivity. Qed.

(** ** Running methods *)

Ltac run_method :=
  cbn [run mbind mret M_bind M_ret get put modify emits emit log skip raise
       zoom outcome_of state_of trace_of fst snd app].

(** ** wifi.py: routing of lines to the sensor host *)

Definition trefoil_node : WiFi.WiFi_Module :=
  WiFi.mkWiFi 1 "192.168.0.11" (Some "aa:bb:cc:dd:ee:01") "ON" None
    (Some (Bridge.mkBridgeServer "auxio" 1 52738 [] true))
    (Some (Bridge.mkBridgeServer "uart" 1 63767 [] true))
    "TREFOIL" (Some 0%Z) (Some 0%Z).

Example sendHost_trefoil :
  run (WiFi.sendHost "START") trefoil_node
  = (Returns tt, trefoil_node,
     [Log DEBUG "Bridge server uart is sending message [HOST START] to all active clients...";
      Send UartSrv "HOST START"]).
Proof. reflexivity. Qed.

(** C3, as amended.  In TREFOIL mode with the UART bridge server set up,
    [sendHost(line)] sends the line over the UART side-channel packaged
    as ["HOST " + line].  In DEFAULT mode it sends ["HOST " + line] over
    the AUXIO server when that is set up, otherwise over the main
    connection when that is set, otherwise it only logs an error; the
    UART server is not used.  The module's state is unchanged. *)
Theorem sendHost_routing (w : WiFi.WiFi_Module) (line : string) :
  (WiFi.bridge_mode w = "TREFOIL" ->
   forall uart, WiFi.uartServer w = Some uart ->
     run (WiFi.sendHost line) w
     = (Returns tt, w, Bridge.send UartSrv uart ("HOST " ++ line)))
  /\ (WiFi.bridge_mode w = "DEFAULT" ->
      run (WiFi.sendHost line) w
      = (Returns tt, w,
         match WiFi.auxioServer w, WiFi.mainConn w with
         | Some auxio, _ => Bridge.send AuxioSrv auxio ("HOST " ++ line)
         | None, Some _ => [Send MainSrv ("HOST " ++ line)]
         | None, None =>
             [Log ERROR ("WiFi_Module.sendScript(): Can't send the line ["
                         ++ ("HOST " ++ line)
                         ++ "] to the Wi-Fi script because there are no open connections to it.")]
         end)).
Proof.
  destruct w as [num ip mac st main auxio uart bm onat seen].
  cbn [WiFi.bridge_mode WiFi.uartServer WiFi.auxioServer WiFi.mainConn].
  split.
  - intros -> srv ->. reflexivity.
  - intros ->. destruct auxio as [a|]; [reflexivity|].
    destruct main as [m|]; reflexivity.
Qed.

Lemma sendHost_routing_witness :
  WiFi.bridge_mode trefoil_node = "TREFOIL"
  /\ WiFi.uartServer trefoil_node
     = Some (Bridge.mkBridgeServer "uart" 1 63767 [] true)
  /\ run (WiFi.sendHost "START") trefoil_node
     = (Returns tt, trefoil_node,
        Bridge.send UartSrv (Bridge.mkBridgeServer "uart" 1 63767 [] true)
                    "HOST START").
Proof.
  split; [reflexivity|]. split; [reflexivity|].
  exact (proj1 (sendHost_routing trefoil_node "START") eq_refl _ eq_refl).
Defined.

(** C3 as stated fails in its first half: in TREFOIL mode with the UART
    server set up, the bare line is not among the lines sent; what goes
    over UART is the packaged line. *)
Lemma sendHost_trefoil_is_packaged :
  ~ (forall (w : WiFi.WiFi_Module) (line : string),
        WiFi.bridge_mode w = "TREFOIL" ->
        WiFi._uartSrvConnected w = true ->
        In (Send UartSrv line) (trace_of (run (WiFi.sendHost line) w))).
Proof.
  intros H. specialize (H trefoil_node "START" eq_refl eq_refl).
  cbn in H. destruct H as [H|[H|[]]]; discriminate H.
Qed.

(** ** Reasoning about methods *)

Section MethodFacts.
Context {S : Type}.

Definition prepend {A} (t : list event) (x : result A * S * list event)
  : result A * S * list event :=
  (outcome_of x, state_of x, (t ++ trace_of x)%list).

Lemma prepend_nil {A} (x : result A * S * list event) : prepend [] x = x.
Proof. destruct x as [[r s] t]. reflexivity. Qed.

Lemma run_bind {A B} (m : M S A) (k : A -> M S B) s :
  run (m ≫= k) s
  = match outcome_of (run m s) with
    | Returns a => prepend (trace_of (run m s)) (run (k a) (state_of (run m s)))
    | Raises e => (Raises e, state_of (run m s), trace_of (run m s))
    end.
Proof. reflexivity. Qed.

Lemma run_bind_returns {A B} (m : M S A) (k : A -> M S B) s a s' t :
  run m s = (Returns a, s', t) ->
  run (m ≫= k) s = prepend t (run (k a) s').
Proof. intros H. rewrite run_bind, H. reflexivity. Qed.

Lemma run_bind_raises {A B} (m : M S A) (k : A -> M S B) s e s' t :
  run m s = (Raises e, s', t) ->
  run (m ≫= k) s = (Raises e, s', t).
Proof. intros H. rewrite run_bind, H. reflexivity. Qed.

Lemma run_get_bind {B} (k : S -> M S B) s :
  run (get ≫= k) s = run (k s) s.
Proof.
  rewrite (run_bind_returns get k s s s []) by reflexivity.
  apply prepend_nil.
Qed.

Lemma run_modify_bind {B} (f : S -> S) (k : unit -> M S B) s :
  run (modify f ≫= k) s = run (k tt) (f s).
Proof.
  rewrite (run_bind_returns (modify f) k s tt (f s) []) by reflexivity.
  apply prepend_nil.
Qed.

Lemma run_skip_bind {B} (k : unit -> M S B) s :
  run (skip ≫= k) s = run (k tt) s.
Proof.
  rewrite (run_bind_returns skip k s tt s []) by reflexivity.
  apply prepend_nil.
Qed.

Lemma run_emits_bind {B} (t : list event) (k : unit -> M S B) s :
  run (emits t ≫= k) s = prepend t (run (k tt) s).
Proof. now rewrite (run_bind_returns (emits t) k s tt s t). Qed.

Lemma run_log_bind {B} lvl text (k : unit -> M S B) s :
  run (log lvl text ≫= k) s = prepend [Log lvl text] (run (k tt) s).
Proof. apply run_emits_bind. Qed.

Lemma run_emit_bind {B} e (k : unit -> M S B) s :
  run (emit e ≫= k) s = prepend [e] (run (k tt) s).
Proof. apply run_emits_bind. Qed.

Lemma prepend_prepend {A} (t u : list event) (x : result A * S * list event) :
  prepend t (prepend u x) = prepend (t ++ u) x.
Proof.
  destruct x as [[r s] v]. unfold prepend.
  cbn [outcome_of state_of trace_of fst snd]. now rewrite List.app_assoc.
Qed.

Lemma run_bind_assoc {A B C} (m : M S A) (k1 : A -> M S B) (k2 : B -> M S C) s :
  run ((m ≫= k1) ≫= k2) s = run (m ≫= (fun a => k1 a ≫= k2)) s.
Proof.
  rewrite !run_bind.
  destruct (run m s) as [[[a|e] s1] t1];
    cbn [outcome_of state_of trace_of fst snd]; [|reflexivity].
  rewrite run_bind.
  destruct (run (k1 a) s1) as [[[b|e] s2] t2];
    cbn [prepend outcome_of state_of trace_of fst snd]; [|reflexivity].
  symmetry. apply prepend_prepend.
Qed.

End MethodFacts.

Ltac step :=
  first [ rewrite run_bind_assoc
        | rewrite run_get_bind
        | rewrite run_modify_bind
        | rewrite run_skip_bind
        | rewrite run_log_bind
        | rewrite run_emit_bind
        | rewrite run_emits_bind ].

Ltac project :=
  unfold prepend; cbn [outcome_of state_of trace_of fst snd].

(** ** model.py: verifyNode *)

Section ModelFacts.
Import Model.

(** What [sawAt] does to the status. *)
Definition clear_awol (s : string) : string :=
  if String.eqb s "ON_AWOL" then "ON"
  else if String.eqb s "RUNNING_AWOL" then "RUNNING" else s.

(** The node that [verifyNode(id, ip, when)] leaves for a node found in
    the dictionary. *)
Definition verified (ip : string) (when : Z) (node : SensorNode) : SensorNode :=
  let node1 :=
    if String.eqb (ipaddr node) ip && String.eqb (status node) "UNSEEN"
    then set_status "ON" node else node in
  set_status (clear_awol (status node1)) (set_lastSeen (Some when) node1).

Lemma run_sawAt (when : Z) (node : SensorNode) :
  run (sawAt when) node
  = (Returns tt,
     set_status (clear_awol (status node)) (set_lastSeen (Some when) node), []).
Proof.
  unfold sawAt. rewrite run_modify_bind, run_get_bind. unfold clear_awol.
  destruct node as [num ip mac st on seen wifi host]. cbn [status set_lastSeen].
  destruct (String.eqb st "ON_AWOL"); [reflexivity|].
  destruct (String.eqb st "RUNNING_AWOL"); reflexivity.
Qed.

Lemma run_on_node {A} (id : Z) (m : M SensorNode A) (net : SensorNet) node :
  nodes net !! id = Some node ->
  run (on_node id m) net
  = (outcome_of (run m node),
     mkSensorNet (<[id := state_of (run m node)]> (nodes net)) (order net),
     trace_of (run m node)).
Proof. intros E. cbn [run on_node]. rewrite E. reflexivity. Qed.

Lemma verifyNode_known net id ip when node :
  nodes net !! id = Some node ->
  let r := run (verifyNode id ip when) net in
  outcome_of r = Returns tt
  /\ state_of r
     = mkSensorNet (<[id := verified ip when node]> (nodes net)) (order net)
  /\ (ipaddr node <> ip ->
      In (Log WARNING ("	but the IP address we have on file for that node is "
                       ++ ipaddr node ++ "!")) (trace_of r)).
Proof.
  intros E r. subst r. unfold verifyNode.
  rewrite run_get_bind, E. cbn [isSome negb].
  rewrite run_skip_bind, run_get_bind, E.
  unfold verified.
  destruct (String.eqb_spec (ipaddr node) ip) as [Hip|Hip]; cbn [negb andb].
  - destruct (String.eqb (status node) "UNSEEN") eqn:Hst.
    + repeat step. project.
      rewrite (run_bind_returns (on_node id isOn) _ net tt
                 (mkSensorNet (<[id := set_status "ON" node]> (nodes net))
                              (order net)) [])
        by (rewrite (run_on_node id isOn net node E); reflexivity).
      rewrite (run_on_node id (sawAt when) _ (set_status "ON" node))
        by (cbn [nodes]; apply lookup_insert_eq).
      rewrite run_sawAt. project. cbn [nodes order].
      rewrite insert_insert_eq. repeat split. intros Hne. congruence.
    + repeat step. rewrite (run_on_node id (sawAt when) _ node E), run_sawAt.
      project. repeat split. intros Hne. congruence.
  - repeat step. rewrite (run_on_node id (sawAt when) _ node E), run_sawAt.
    project. repeat split. intros _. right. left. reflexivity.
Qed.

Lemma lookup_set_node (id : Z) (node : SensorNode) (net : SensorNet) :
  nodes (set_node id node net) !! id = Some node.
Proof. cbn [set_node nodes]. apply lookup_insert_eq. Qed.

Lemma verifyNode_after_add net id ip when :
  nodes net !! id = None ->
  exists T,
    In (Log WARNING "	Going ahead and adding it...") T
    /\ run (verifyNode id ip when) net
       = prepend T (run (verifyNode id ip when)
                        (set_node id (fst (SensorNode_init id ip)) net)).
Proof.
  intros E. unfold verifyNode.
  rewrite !run_get_bind, E, lookup_set_node. cbn [isSome negb].
  rewrite run_skip_bind, run_get_bind, lookup_set_node.
  unfold nodeAt. repeat step. rewrite E. repeat step.
  destruct (nodeWithIP ip net) as [other|]; repeat step;
    rewrite lookup_set_node; rewrite !prepend_prepend;
    eexists; (split; [|reflexivity]); cbn; tauto.
Qed.

Lemma verifyNode_new net id ip when :
  nodes net !! id = None ->
  let r := run (verifyNode id ip when) net in
  outcome_of r = Returns tt
  /\ state_of r
     = mkSensorNet
         (<[id := verified ip when (fst (SensorNode_init id ip))]> (nodes net))
         (order net ++ [id])
  /\ In (Log WARNING "	Going ahead and adding it...") (trace_of r).
Proof.
  intros E r. subst r.
  destruct (verifyNode_after_add net id ip when E) as (T & HT & ->).
  destruct (verifyNode_known (set_node id (fst (SensorNode_init id ip)) net)
              id ip when _ (lookup_set_node _ _ _)) as (Ho & Hs & _).
  project. rewrite Ho, Hs. cbn [set_node nodes order]. rewrite E.
  cbn [isSome]. rewrite insert_insert_eq. repeat split.
  apply in_or_app. now left.
Qed.

(** *** nodeOn *)

(** The node that [nodeAt(id, ip)] leaves under [id]. *)
Definition located (id : Z) (ip : string) (net : SensorNet) : SensorNode :=
  match nodes net !! id with
  | Some node =>
      if String.eqb ip (ipaddr node) then node
      else state_of (run (reloc ip) node)
  | None => fst (SensorNode_init id ip)
  end.

Definition keys_after_add (id : Z) (net : SensorNet) : list Z :=
  if isSome (nodes net !! id) then order net else (order net ++ [id])%list.

(** What [setMac(mac)] followed by [turnOn(when)] makes of a node. *)
Definition node_on (mac : string) (when : Z) (node : SensorNode) : SensorNode :=
  state_of (run (turnOn when) (state_of (run (setMac mac) node))).

(** A node with its turn-on and last-seen times, and those of its Wi-Fi
    module, set to [when], and nothing else changed. *)
Definition stamp (when : Z) (node : SensorNode) : SensorNode :=
  set_wifi_module
    (WiFi.set_lastSeen (Some when)
       (WiFi.set_onAt (Some when) (wifi_module node)))
    (set_lastSeen (Some when) (set_onAt (Some when) node)).

Definition restamp (id : Z) (when : Z) (net : SensorNet) : SensorNet :=
  mkSensorNet (alter (stamp when) id (nodes net)) (order net).

Lemma nodeAt_run (id : Z) (ip : string) (net : SensorNet) :
  outcome_of (run (nodeAt id ip) net) = Returns tt
  /\ state_of (run (nodeAt id ip) net)
     = mkSensorNet (<[id := located id ip net]> (nodes net))
                   (keys_after_add id net).
Proof.
  unfold nodeAt, located, keys_after_add. rewrite run_get_bind.
  destruct (nodes net !! id) as [node|] eqn:E; cbn [isSome].
  - destruct (String.eqb ip (ipaddr node)).
    + cbn. rewrite insert_id by exact E. now destruct net.
    + repeat step.
      destruct (nodeWithIP ip net); repeat step;
        rewrite (run_on_node id (reloc ip) net node E); project; now split.
  - repeat step.
    destruct (nodeWithIP ip net); repeat step; project;
      cbn [run modify]; cbn [outcome_of state_of fst snd];
      unfold set_node; rewrite E; now split.
Qed.

Lemma setMac_returns (mac : string) (node : SensorNode) :
  outcome_of (run (setMac mac) node) = Returns tt.
Proof. reflexivity. Qed.

Lemma turnOn_returns (when : Z) (node : SensorNode) :
  outcome_of (run (turnOn when) node) = Returns tt.
Proof.
  destruct node as [num ip mac st on seen [wn wi wm ws wc [a|] [u|] wb wo wl] host];
    reflexivity.
Qed.

Lemma on_node_run {A} (id : Z) (m : M SensorNode A) (net : SensorNet)
      (node : SensorNode) (a : A) :
  nodes net !! id = Some node ->
  outcome_of (run m node) = Returns a ->
  run (on_node id m) net
  = (Returns a,
     mkSensorNet (<[id := state_of (run m node)]> (nodes net)) (order net),
     trace_of (run m node)).
Proof. intros E Ho. rewrite (run_on_node id m net node E), Ho. reflexivity. Qed.

Lemma nodeOn_run (num : Z) (ip mac : string) (when : Z) (net : SensorNet) :
  let r := run (nodeOn num ip mac when) net in
  state_of r
  = mkSensorNet (<[num := node_on mac when (located num ip net)]> (nodes net))
                (keys_after_add num net)
  /\ outcome_of r
     = match __str__ (state_of r) with
       | Returns _ => Returns tt
       | Raises e => Raises e
       end.
Proof.
  intros r. subst r. unfold nodeOn, logNode. repeat step.
  destruct (nodeAt_run num ip net) as (Ho & Hs).
  destruct (run (nodeAt num ip) net) as [[o s] t] eqn:R.
  cbn [outcome_of state_of fst snd] in Ho, Hs. subst o s.
  rewrite (run_bind_returns _ _ _ _ _ _ R).
  erewrite run_bind_returns;
    [|apply on_node_run;
      [cbn [nodes]; apply lookup_insert_eq | apply setMac_returns]].
  erewrite run_bind_returns;
    [|apply on_node_run;
      [cbn [nodes]; apply lookup_insert_eq | apply turnOn_returns]].
  rewrite run_get_bind. cbn [nodes order]. rewrite !insert_insert_eq.
  fold (node_on mac when (located num ip net)).
  destruct (__str__ _) as [str|e] eqn:Hstr; project; cbn [run log emit emits raise];
    cbn [outcome_of state_of fst snd]; rewrite Hstr; now split.
Qed.

Lemma located_ipaddr (id : Z) (ip : string) (net : SensorNet) :
  ipaddr (located id ip net) = ip.
Proof.
  unfold located. destruct (nodes net !! id) as [node|]; [|reflexivity].
  destruct (String.eqb_spec ip (ipaddr node)) as [->|]; [reflexivity|].
  now destruct node.
Qed.

Lemma node_on_ipaddr (mac : string) (when : Z) (node : SensorNode) :
  ipaddr (node_on mac when node) = ipaddr node.
Proof.
  destruct node as [num ip m st on seen [wn wi wm ws wc [a|] [u|] wb wo wl] host];
    reflexivity.
Qed.

Lemma node_on_twice (mac : string) (t1 t2 : Z) (node : SensorNode) :
  node_on mac t2 (node_on mac t1 node) = stamp t2 (node_on mac t1 node).
Proof.
  destruct node as [num ip m st on seen [wn wi wm ws wc [a|] [u|] wb wo wl] host];
    reflexivity.
Qed.

Lemma str_items_alter (f : SensorNode -> SensorNode) (id : Z)
      (m : gmap Z SensorNode) (keys : list Z) (acc : string) :
  (forall n, ipaddr (f n) = ipaddr n /\ macaddr (f n) = macaddr n
             /\ status (f n) = status n) ->
  str_items (alter f id m) keys acc = str_items m keys acc.
Proof.
  intros Hf. revert acc. induction keys as [|k keys IH]; intros acc;
    [reflexivity|].
  cbn [str_items]. destruct (decide (id = k)) as [->|Hne].
  - rewrite lookup_alter_eq. destruct (m !! k) as [n|]; cbn [fmap option_fmap option_map];
      [|apply IH].
    destruct (Hf n) as (-> & -> & ->). destruct (macaddr n); [apply IH | reflexivity].
  - rewrite lookup_alter_ne by exact Hne. destruct (m !! k) as [n|]; [|apply IH].
    destruct (macaddr n); [apply IH | reflexivity].
Qed.

Lemma str_restamp (id : Z) (when : Z) (net : SensorNet) :
  __str__ (restamp id when net) = __str__ net.
Proof.
  unfold __str__, restamp. cbn [nodes order]. apply str_items_alter.
  intros n. now destruct n.
Qed.

End ModelFacts.

(** A registry holding node 1, powered on from 192.168.0.11. *)
Definition net_with_node1 : Model.SensorNet :=
  state_of (run (Model.nodeOn 1 "192.168.0.11" "aa:bb:cc:dd:ee:01" 100)
                Model.SensorNet_init).

(** C2, as amended.  [verifyNode(id, ip, when)] always returns.  If
    [id] is not registered, a node for it is created, with warnings, at
    address [ip], marked ON and last seen at [when].  If [id] is
    registered, its last-seen time becomes [when] and an AWOL status is
    cleared to its base (ON_AWOL to ON, RUNNING_AWOL to RUNNING; an
    UNSEEN node whose address matches becomes ON); when the stored IP
    address differs from [ip] the mismatch is logged as a warning and
    the stored address is left as it was.  No other node changes. *)
Theorem verifyNode_effect (net : Model.SensorNet) (id : Z) (ip : string) (when : Z) :
  let r := run (Model.verifyNode id ip when) net in
  outcome_of r = Returns tt
  /\ (forall j, j <> id ->
        Model.nodes (state_of r) !! j = Model.nodes net !! j)
  /\ match Model.nodes net !! id with
     | None =>
         exists node',
           Model.nodes (state_of r) !! id = Some node'
           /\ Model.ipaddr node' = ip
           /\ Model.status node' = "ON"
           /\ Model.lastSeen node' = Some when
           /\ In (Log WARNING "	Going ahead and adding it...") (trace_of r)
     | Some node =>
         exists node',
           Model.nodes (state_of r) !! id = Some node'
           /\ Model.lastSeen node' = Some when
           /\ Model.status node'
              = clear_awol
                  (if String.eqb (Model.ipaddr node) ip
                      && String.eqb (Model.status node) "UNSEEN"
                   then "ON" else Model.status node)
           /\ Model.ipaddr node' = Model.ipaddr node
           /\ (Model.ipaddr node <> ip ->
               In (Log WARNING
                     ("	but the IP address we have on file for that node is "
                      ++ Model.ipaddr node ++ "!")) (trace_of r))
     end.
Proof.
  intros r. subst r.
  destruct (Model.nodes net !! id) as [node|] eqn:E.
  - destruct (verifyNode_known net id ip when node E) as (Ho & Hs & Ht).
    rewrite Hs. cbn [Model.nodes]. split; [exact Ho|]. split.
    + intros j Hj. now rewrite lookup_insert_ne.
    + exists (verified ip when node). rewrite lookup_insert_eq.
      split; [reflexivity|]. unfold verified.
      destruct (String.eqb (Model.ipaddr node) ip
                && String.eqb (Model.status node) "UNSEEN");
        destruct node; repeat split; exact Ht.
  - destruct (verifyNode_new net id ip when E) as (Ho & Hs & Ht).
    rewrite Hs. cbn [Model.nodes]. split; [exact Ho|]. split.
    + intros j Hj. now rewrite lookup_insert_ne.
    + exists (verified ip when (fst (Model.SensorNode_init id ip))).
      rewrite lookup_insert_eq. split; [reflexivity|].
      unfold verified. cbn [Model.SensorNode_init fst Model.ipaddr Model.status].
      rewrite String.eqb_refl. cbn. repeat split. exact Ht.
Qed.

Lemma verifyNode_effect_witness :
  2%Z <> 1%Z
  /\ outcome_of (run (Model.verifyNode 1 "192.168.0.99" 200) net_with_node1)
     = Returns tt
  /\ Model.nodes
       (state_of (run (Model.verifyNode 1 "192.168.0.99" 200) net_with_node1))
     !! 2%Z = Model.nodes net_with_node1 !! 2%Z.
Proof.
  split; [lia|].
  pose proof (verifyNode_effect net_with_node1 1 "192.168.0.99" 200) as H.
  cbv zeta in H. destruct H as (Ho & Hj & _).
  split; [exact Ho | apply Hj; lia].
Defined.

(** C2 as stated fails in its last part: node 1 is registered at
    192.168.0.11; a message verified from 192.168.0.99 leaves the stored
    address at 192.168.0.11. *)
Lemma verifyNode_keeps_stored_ip :
  ~ (forall (net : Model.SensorNet) (id : Z) (ip : string) (when : Z)
            (node : Model.SensorNode),
        Model.nodes net !! id = Some node ->
        Model.ipaddr node <> ip ->
        exists node',
          Model.nodes (state_of (run (Model.verifyNode id ip when) net)) !! id
          = Some node'
          /\ Model.ipaddr node' = ip).
Proof.
  intros H.
  destruct (Model.nodes net_with_node1 !! 1%Z) as [node|] eqn:E;
    [|vm_compute in E; discriminate E].
  assert (Model.ipaddr node = "192.168.0.11") as Hip
    by (vm_compute in E; injection E as <-; reflexivity).
  destruct (H net_with_node1 1%Z "192.168.0.99" 200%Z node E) as (n' & Hn & Hi).
  { rewrite Hip. discriminate. }
  destruct (verifyNode_known net_with_node1 1 "192.168.0.99" 200 node E)
    as (_ & Hs & _).
  rewrite Hs in Hn. cbn [Model.nodes] in Hn. rewrite lookup_insert_eq in Hn.
  injection Hn as <-. unfold verified in Hi. rewrite Hip in Hi.
  cbn [String.eqb Ascii.eqb Bool.eqb andb] in Hi.
  destruct node. cbn in Hi, Hip. rewrite Hip in Hi. discriminate Hi.
Qed.

(** ** model.py: POWERED_ON twice *)

Example nodeOn_twice_node1 :
  state_of (run (Model.nodeOn 1 "192.168.0.11" "aa:bb:cc:dd:ee:01" 250)
                net_with_node1)
  = restamp 1 250 net_with_node1.
Proof. vm_compute. reflexivity. Qed.


(** ** commands.py: BRIDGE_MODE *)

Section CommandFacts.
Import Commands.

Lemma run_mret_bind {S A B} (a : A) (k : A -> M S B) (s : S) :
  run (mret a ≫= k) s = run (k a) s.
Proof.
  rewrite (run_bind_returns (mret a) k s a s []) by reflexivity.
  apply prepend_nil.
Qed.

Lemma verifyNode_registers (net : Model.SensorNet) (id : Z) (ip : string) (when : Z) :
  exists node T,
    run (Model.verifyNode id ip when) net
    = (Returns tt,
       Model.mkSensorNet (<[id := node]> (Model.nodes net))
                         (keys_after_add id net), T).
Proof.
  destruct (run (Model.verifyNode id ip when) net) as [[o s] T] eqn:R.
  unfold keys_after_add.
  destruct (Model.nodes net !! id) as [node|] eqn:E; cbn [isSome].
  - destruct (verifyNode_known net id ip when node E) as (Ho & Hs & _).
    rewrite R in Ho, Hs. cbn [outcome_of state_of fst snd] in Ho, Hs. subst.
    now eexists _, _.
  - destruct (verifyNode_new net id ip when E) as (Ho & Hs & _).
    rewrite R in Ho, Hs. cbn [outcome_of state_of fst snd] in Ho, Hs. subst.
    now eexists _, _.
Qed.

(** Whatever single word follows the node id is stored as it is. *)
Lemma handleBridgeMode_stores_argument
      (net : Model.SensorNet) (m : Message) (str : string) (words : list string)
      (name : string) (num : Z) (arg_bmstr : string) :
  let cmd := mkCommand m str words name [arg_bmstr] (Some num) in
  let r := run (handleBridgeMode cmd) net in
  outcome_of r = Returns tt
  /\ bridgeMode_of num (state_of r) = Some arg_bmstr.
Proof.
  intros cmd r. subst r cmd. unfold handleBridgeMode, get_nodeNum.
  cbn [cmdArgs nodeNum msg List.length Nat.eqb negb].
  rewrite run_skip_bind, run_mret_bind.
  destruct (verifyNode_registers net num (sender_ip m) (time m)) as (node & T & R).
  rewrite (run_bind_returns _ _ _ _ _ _ R). repeat step.
  rewrite (run_on_node num _ _ node) by (cbn [Model.nodes]; apply lookup_insert_eq).
  project. split; [reflexivity|].
  unfold bridgeMode_of. cbn [Model.nodes]. rewrite lookup_insert_eq.
  reflexivity.
Qed.

End CommandFacts.

(** C1: what the code does on the scenario of the claim.  After
    [BRIDGE_MODE 1 UART-ONLY] node 1's stored bridge mode is the wire
    name ["UART-ONLY"], not ["UART"], the value the handler's own table
    gives for it; after [BRIDGE_MODE 1 TREFOIL] it is ["TREFOIL"]. *)
Theorem bridge_mode_scenario_stores_wire_names :
  let s1 := state_of (run (Commands.process
                             (Commands.mkMessage "BRIDGE_MODE 1 UART-ONLY"
                                                 "192.168.0.11" 1))
                          Model.SensorNet_init) in
  let s2 := state_of (run (Commands.process
                             (Commands.mkMessage "BRIDGE_MODE 1 TREFOIL"
                                                 "192.168.0.11" 2))
                          s1) in
  Commands.bridgeMode_of 1 s1 = Some "UART-ONLY"
  /\ Commands.model_bridge_mode "UART-ONLY" = "UART"
  /\ Commands.bridgeMode_of 1 s2 = Some "TREFOIL".
Proof. vm_compute. repeat split. Qed.

(** ** model.py: checksum failures in _parseMsg *)

Example parseMsg_good :
  run (S:=unit) (Host._parseMsg "$HOST_READY*14 ") tt
  = (Returns (Some ["HOST_READY"]), tt,
     [Log DEBUG "SensorHost._parseMsg(): After stripping any NMEA framing I got the message [HOST_READY]."]).
Proof. reflexivity. Qed.

Example parseMsg_con_pulse :
  outcome_of (run (S:=unit)
                  (Host._parseMsg "CON_PULSE,1,2,3,4,5,6,(0,(1,(2,9),5),8)") tt)
  = Returns (Some ["CON_PULSE"; "1"; "2"; "3"; "4"; "5"; "6"; "(0,(1,(2,9),5),8)"]).
Proof. reflexivity. Qed.

Section HostFacts.
Context {S : Type}.

(** A mismatch that [stripNMEA] reports as [BadChecksum] is absorbed:
    the line is dropped with one error logged, and nothing is raised. *)
Lemma parseMsg_bad_checksum (data : string) (s : S) :
  PyStr.strip data <> "" ->
  Nmea.stripNMEA (PyStr.strip data) = Raises BadChecksum ->
  run (Host._parseMsg data) s
  = (Returns None, s,
     [Log ERROR ("SensorHost._parseMsg(): Checksum failed on line ["
                 ++ PyStr.strip data ++ "]; ignoring line...")]).
Proof.
  intros Hne Hbad. unfold Host._parseMsg.
  destruct (String.eqb_spec (PyStr.strip data) "") as [E|_]; [contradiction|].
  rewrite Hbad. reflexivity.
Qed.

(** Any other exception of [stripNMEA] leaves [_parseMsg] as it is,
    with nothing logged. *)
Lemma parseMsg_other_exception (data : string) (e : exn) (s : S) :
  PyStr.strip data <> "" ->
  Nmea.stripNMEA (PyStr.strip data) = Raises e ->
  e <> BadChecksum ->
  run (Host._parseMsg data) s = (Raises e, s, []).
Proof.
  intros Hne He Hbad. unfold Host._parseMsg.
  destruct (String.eqb_spec (PyStr.strip data) "") as [E|_]; [contradiction|].
  rewrite He. destruct e; try reflexivity. contradiction.
Qed.

End HostFacts.

(** C8: the failing input.  The line [$A*zz] carries a checksum field
    that does not match the sentence (and is not hexadecimal).
    [getCRC] raises [ValueError] on it, [_parseMsg] catches only
    [BadChecksum], so the exception leaves [_parseMsg] with nothing
    logged, and the line after it is not parsed; whereas the mismatching
    hexadecimal field of [$A*42] is dropped, logged, and parsing goes
    on. *)
Theorem parseMsg_nonhex_checksum_escapes :
  run (S:=unit) (Host._parseMsg "$A*zz") tt = (Raises ValueError, tt, [])
  /\ run (S:=unit) (Host.parse_lines ["$A*zz"; "$A*41"]) tt
     = (Raises ValueError, tt, [])
  /\ run (S:=unit) (Host.parse_lines ["$A*42"; "$A*41"]) tt
     = (Returns [None; Some ["A"]], tt,
        [Log ERROR "SensorHost._parseMsg(): Checksum failed on line [$A*42]; ignoring line...";
         Log DEBUG "SensorHost._parseMsg(): After stripping any NMEA framing I got the message [A]."]).
Proof. repeat split. Qed.

Example bridge_mode_normal_stored_as_sent :
  Commands.bridgeMode_of 1
    (state_of (run (Commands.process
                      (Commands.mkMessage "BRIDGE_MODE 1 NORMAL" "192.168.0.11" 1))
                   Model.SensorNet_init))
  = Some "NORMAL"
  /\ Commands.model_bridge_mode "NORMAL" = "DEFAULT".
Proof. vm_compute. split; reflexivity. Qed.

(* ===================================================================== *)
(** * Further properties of the code *)
(* ===================================================================== *)

(** ** nmea.py *)

Section NmeaMore.
Import PyStr Nmea.

Lemma encode_app (s t : string) :
  encode (s ++ t) = (encode s ++ encode t)%list.
Proof.
  induction s as [|c s IH]; [reflexivity|].
  change (encode (String c s ++ t))
    with (encode_char c ++ encode (s ++ t))%list.
  change (encode (String c s)) with (encode_char c ++ encode s)%list.
  now rewrite IH, List.app_assoc.
Qed.

Lemma fold_lxor_from (l : list N) (a : N) :
  fold_left N.lxor l a = N.lxor a (fold_left N.lxor l 0%N).
Proof.
  revert a. induction l as [|b l IH]; intros a; cbn [fold_left].
  - now rewrite N.lxor_0_r.
  - rewrite (IH (N.lxor a b)), (IH (N.lxor 0 b)), N.lxor_0_l.
    now rewrite N.lxor_assoc.
Qed.

Lemma py_int_raises (base : Z) (s : string) (e : exn) :
  py_int base s = Raises e -> e = ValueError.
Proof.
  unfold py_int.
  repeat match goal with
         | |- context [match ?x with _ => _ end] => destruct x
         | |- context [if ?x then _ else _] => destruct x
         end;
    intros H; try discriminate H; now injection H as <-.
Qed.

Lemma get_In (s : string) (n : nat) (c : ascii) :
  String.get n s = Some c -> In c (list_ascii_of_string s).
Proof.
  revert n. induction s as [|d s IH]; intros n H; [discriminate H|].
  destruct n as [|n]; cbn in H |- *.
  - injection H as ->. now left.
  - right. eapply IH, H.
Qed.

Lemma no_star_getCRC (s : string) :
  no_dollar_star s = true -> getCRC s = Returns None.
Proof.
  intros Hs. unfold getCRC.
  destruct (String.length s <? 3)%nat; [reflexivity|].
  destruct (from_end 3 s) as [c|] eqn:E; [|reflexivity].
  unfold from_end in E. apply get_In in E.
  unfold no_dollar_star in Hs. rewrite forallb_forall in Hs.
  specialize (Hs c E). apply andb_prop in Hs as [_ Hs].
  cbn [char_is]. rewrite Ascii.eqb_sym.
  destruct (Ascii.eqb c "*"); [discriminate Hs | reflexivity].
Qed.

End NmeaMore.

(** X1.  The checksum of a concatenation is the XOR of the checksums of
    the parts. *)
Theorem calcCRC_concat (s t : string) :
  Nmea.calcCRC (s ++ t) = N.lxor (Nmea.calcCRC s) (Nmea.calcCRC t).
Proof.
  unfold Nmea.calcCRC. rewrite encode_app, fold_left_app.
  apply fold_lxor_from.
Qed.

(** Where an exception of [stripNMEA] comes from: the comparison, or
    reading the checksum field. *)
Lemma stripNMEA_raises (line : string) (e : exn) :
  Nmea.stripNMEA line = Raises e ->
  (e = BadChecksum
   /\ exists v, Nmea.getCRC (PyStr.drop_first line) = Returns (Some v))
  \/ (e = ValueError
      /\ Nmea.getCRC (PyStr.drop_first line) = Raises ValueError).
Proof.
  unfold Nmea.stripNMEA.
  destruct (negb (Nmea.isNMEA line)); [discriminate|]. cbv zeta.
  destruct (Nmea.getCRC (PyStr.drop_first line)) as [[v|]|e'] eqn:Hg; cbn.
  - destruct (negb _); [|discriminate]. intros H. injection H as <-.
    left. split; [reflexivity|]. now exists v.
  - discriminate.
  - intros H. injection H as <-. right.
    assert (e' = ValueError) as ->; [|now split].
    revert Hg. unfold Nmea.getCRC.
    destruct (String.length (PyStr.drop_first line) <? 3)%nat; [discriminate|].
    destruct (negb _); [discriminate|].
    destruct (PyStr.int_base16 _) as [v|e''] eqn:E; cbn; [discriminate|].
    intros H. injection H as <-. eapply py_int_raises, E.
Qed.

(** X2.  [stripNMEA] raises nothing but [BadChecksum] and [ValueError]. *)
Theorem stripNMEA_exceptions (line : string) (e : exn) :
  Nmea.stripNMEA line = Raises e -> e = BadChecksum \/ e = ValueError.
Proof.
  intros H. destruct (stripNMEA_raises line e H) as [(-> & _)|(-> & _)].
  - now left.
  - now right.
Qed.

Lemma stripNMEA_exceptions_witness :
  Nmea.stripNMEA "$A*zz" = Raises ValueError
  /\ (ValueError = BadChecksum \/ ValueError = ValueError).
Proof.
  split; [reflexivity|].
  exact (stripNMEA_exceptions "$A*zz" ValueError eq_refl).
Defined.

(** X3.  Without a checksum the framing round-trips too, for every
    string that has no ['*'] (and no ['$']): [stripNMEA] of
    [makeNMEA(s)] is [s]. *)
Theorem stripNMEA_makeNMEA_plain (s : string) :
  Nmea.no_dollar_star s = true ->
  Nmea.stripNMEA (Nmea.makeNMEA s false) = Returns s.
Proof.
  intros Hs. unfold Nmea.makeNMEA, Nmea.stripNMEA.
  change (Nmea.isNMEA ("$" ++ s)) with true.
  cbn [negb]. change (PyStr.drop_first ("$" ++ s)) with s.
  now rewrite (no_star_getCRC s Hs).
Qed.

Lemma stripNMEA_makeNMEA_plain_witness :
  Nmea.no_dollar_star "HOST_READY" = true
  /\ Nmea.stripNMEA (Nmea.makeNMEA "HOST_READY" false) = Returns "HOST_READY".
Proof.
  split; [reflexivity|].
  exact (stripNMEA_makeNMEA_plain "HOST_READY" eq_refl).
Defined.

(** Without the hypothesis the round trip can fail: a text that ends
    like a checksum field is taken for one. *)
Example stripNMEA_makeNMEA_plain_needs_no_star :
  Nmea.stripNMEA (Nmea.makeNMEA "A*41" false) = Returns "A".
Proof. reflexivity. Qed.

Section NmeaAcceptance.
Import PyStr Nmea.

Lemma last3_split (s : string) :
  (3 <= String.length s)%nat ->
  exists p c a b, s = p ++ String c (String a (String b "")).
Proof.
  induction s as [|x s IH]; cbn [String.length]; intros H; [lia|].
  destruct (le_lt_dec 3 (String.length s)) as [Hl|Hl].
  - destruct (IH Hl) as (p & c & a & b & ->).
    now exists (String x p), c, a, b.
  - destruct s as [|a [|b [|y s]]]; cbn [String.length] in H, Hl; try lia.
    now exists "", x, a, b.
Qed.

Lemma isNMEA_true (line : string) :
  isNMEA line = true -> line = "$" ++ drop_first line.
Proof.
  destruct line as [|c r]; [discriminate|].
  unfold isNMEA.
  change (String.get 0 (String c r)) with (Some c).
  cbn [String.eqb negb andb char_is drop_first].
  intros H. apply Ascii.eqb_eq in H. now subst.
Qed.

Lemma getCRC_not_star (p : string) (c a b : ascii) :
  Ascii.eqb "*" c = false ->
  getCRC (p ++ String c (String a (String b ""))) = Returns None.
Proof.
  intros Hc. unfold getCRC, from_end. rewrite length_framed.
  replace (String.length p + 3 <? 3)%nat with false
    by (symmetry; apply Nat.ltb_ge; lia).
  replace (String.length p + 3 - 3)%nat with (String.length p) by lia.
  rewrite get_app_length. cbn [char_is]. now rewrite Hc.
Qed.

Lemma getCRC_short (s : string) :
  (String.length s < 3)%nat -> getCRC s = Returns None.
Proof.
  intros H. unfold getCRC.
  now replace (String.length s <? 3)%nat with true
    by (symmetry; apply Nat.ltb_lt; exact H).
Qed.

End NmeaAcceptance.

(** X4.  What [stripNMEA] returns is accounted for: either the line was
    not a sentence and comes back as it is; or it is the line without
    its ['$'], there being no checksum field; or the line is
    ['$'], the result, ['*'] and two characters that [int(.., 16)] reads
    as the XOR of the result's bytes.  Nothing else is ever accepted. *)
Theorem stripNMEA_accepts (line r : string) :
  Nmea.stripNMEA line = Returns r ->
  (Nmea.isNMEA line = false /\ r = line)
  \/ (line = "$" ++ r /\ Nmea.getCRC r = Returns None)
  \/ (exists a b,
        line = "$" ++ r ++ "*" ++ String a (String b "")
        /\ PyStr.int_base16 (String a (String b ""))
           = Returns (Z.of_N (Nmea.calcCRC r))).
Proof.
  unfold Nmea.stripNMEA.
  destruct (Nmea.isNMEA line) eqn:Hn; cbn [negb].
  2:{ intros H. injection H as <-. now left. }
  apply isNMEA_true in Hn. cbv zeta.
  remember (PyStr.drop_first line) as rest eqn:Er. clear Er.
  intros H. right.
  destruct (le_lt_dec 3 (String.length rest)) as [Hl|Hl].
  - destruct (last3_split rest Hl) as (p & c & a & b & Hrest).
    destruct (Ascii.eqb "*" c) eqn:Hc.
    + apply Ascii.eqb_eq in Hc. subst c rest.
      rewrite getCRC_framed, drop_last3_framed in H.
      destruct (PyStr.int_base16 (String a (String b ""))) as [v|e] eqn:Hv;
        [|discriminate].
      cbn in H. destruct (Z.of_N (Nmea.calcCRC p) =? v)%Z eqn:Hcrc;
        cbn [negb] in H; [|discriminate].
      injection H as <-. right. exists a, b.
      apply Z.eqb_eq in Hcrc. subst v. split; [exact Hn | exact Hv].
    + assert (Hg : Nmea.getCRC rest = Returns None)
        by (rewrite Hrest; now apply getCRC_not_star).
      rewrite Hg in H. cbn in H. injection H as <-. now left.
  - rewrite (getCRC_short rest Hl) in H. cbn in H.
    injection H as <-. left.
    split; [exact Hn | now apply getCRC_short].
Qed.

Lemma stripNMEA_accepts_witness :
  Nmea.stripNMEA "$PDME,2*02" = Returns "PDME,2"
  /\ ((Nmea.isNMEA "$PDME,2*02" = false /\ "PDME,2" = "$PDME,2*02")
      \/ ("$PDME,2*02" = "$" ++ "PDME,2" /\ Nmea.getCRC "PDME,2" = Returns None)
      \/ (exists a b,
            "$PDME,2*02" = "$" ++ "PDME,2" ++ "*" ++ String a (String b "")
            /\ PyStr.int_base16 (String a (String b ""))
               = Returns (Z.of_N (Nmea.calcCRC "PDME,2")))).
Proof.
  split; [reflexivity|].
  exact (stripNMEA_accepts "$PDME,2*02" "PDME,2" eq_refl).
Defined.

(** ** Splitting and joining *)

Section SplitJoin.
Import PyStr.

Lemma split_on_nonempty (sep : ascii) (s : string) : split_on sep s <> [].
Proof.
  destruct s as [|c r]; cbn [split_on]; [discriminate|].
  destruct (Ascii.eqb c sep); [discriminate|].
  destruct (split_on sep r); discriminate.
Qed.

Lemma concat_cons (sep x : string) (xs : list string) :
  xs <> [] -> String.concat sep (x :: xs) = x ++ sep ++ String.concat sep xs.
Proof. destruct xs; [congruence | reflexivity]. Qed.

Lemma concat_firstn_skipn (sep : string) (n : nat) (l : list string) :
  skipn n l <> [] ->
  String.concat sep (firstn n l ++ [String.concat sep (skipn n l)])
  = String.concat sep l.
Proof.
  revert l. induction n as [|n IH]; intros l H; [reflexivity|].
  destruct l as [|x l]; [now cbn in H|].
  cbn [firstn skipn app] in *.
  rewrite concat_cons by (destruct (firstn n l); discriminate).
  rewrite (IH l H).
  symmetry. apply concat_cons. intros ->. now destruct n.
Qed.

End SplitJoin.

(** Joining the pieces of [s.split(sep)] with [sep] gives [s] back. *)
Lemma join_split_on (sep : ascii) (s : string) :
  PyStr.join (String sep "") (PyStr.split_on sep s) = s.
Proof.
  unfold PyStr.join. induction s as [|c r IH]; [reflexivity|].
  cbn [PyStr.split_on]. destruct (Ascii.eqb_spec c sep) as [->|Hne].
  - rewrite concat_cons by apply split_on_nonempty. now rewrite IH.
  - pose proof (split_on_nonempty sep r) as Hr.
    destruct (PyStr.split_on sep r) as [|w ws]; [congruence|].
    destruct ws as [|w' ws].
    + cbn in IH |- *. now rewrite IH.
    + rewrite concat_cons in IH |- * by discriminate.
      rewrite <- IH. reflexivity.
Qed.

(** No piece of [s.split(sep)] contains [sep]. *)
Lemma split_on_no_sep (sep : ascii) (s : string) :
  Forall (fun w => ~ In sep (list_ascii_of_string w)) (PyStr.split_on sep s).
Proof.
  induction s as [|c r IH]; cbn [PyStr.split_on].
  - constructor; [intros []|constructor].
  - destruct (Ascii.eqb_spec c sep) as [->|Hne].
    + constructor; [intros []|exact IH].
    + destruct (PyStr.split_on sep r) as [|w ws].
      * constructor; [|constructor]. cbn. intros [E|[]]. congruence.
      * inversion IH as [|? ? Hw Hws]; subst.
        constructor; [|exact Hws]. cbn. intros [E|Hin]; [congruence|tauto].
Qed.

(** ** model.py: [SensorHost._parseMsg] *)

(** X5.  The words [_parseMsg] returns for a message that is not a
    [CON_PULSE] one are the comma-separated fields of the unframed
    message, all of them and in order: none holds a comma, and joined
    with commas they give the message back (for a [PDMEHEADER] message,
    with its [": "] turned into a comma first). *)
Theorem parseMsg_words {S : Type} (data : string) (s : S)
    (words : list string) :
  outcome_of (run (Host._parseMsg data) s) = Returns (Some words) ->
  exists m : string,
    Nmea.stripNMEA (PyStr.strip data) = Returns m
    /\ m <> ""
    /\ let fields :=
         if PyStr.startswith "PDMEHEADER" m
         then PyStr.replace2 ":" " " "," m else m in
       (PyStr.startswith "CON_PULSE" fields = false ->
        PyStr.join "," words = fields
        /\ Forall (fun w => ~ In ","%char (list_ascii_of_string w)) words).
Proof.
  unfold Host._parseMsg.
  destruct (String.eqb_spec (PyStr.strip data) "") as [E|_];
    [discriminate|].
  destruct (Nmea.stripNMEA (PyStr.strip data)) as [m|e];
    [|destruct e; discriminate].
  destruct (String.eqb_spec m "") as [E|Hm]; [discriminate|].
  cbv zeta.
  remember (if PyStr.startswith "PDMEHEADER" m
            then PyStr.replace2 ":" " " "," m else m) as fields eqn:Ef.
  intros H. exists m. split; [reflexivity|]. split; [exact Hm|].
  cbv zeta. rewrite <- Ef. intros Hcon. rewrite Hcon in H. cbn in H. injection H as <-.
  split; [apply join_split_on | apply split_on_no_sep].
Qed.

Lemma parseMsg_words_witness :
  exists m : string,
    Nmea.stripNMEA (PyStr.strip " $HOST_READY,1*09 ") = Returns m
    /\ m <> ""
    /\ let fields :=
         if PyStr.startswith "PDMEHEADER" m
         then PyStr.replace2 ":" " " "," m else m in
       (PyStr.startswith "CON_PULSE" fields = false ->
        PyStr.join "," ["HOST_READY"; "1"] = fields
        /\ Forall (fun w => ~ In ","%char (list_ascii_of_string w))
             ["HOST_READY"; "1"]).
Proof.
  exact (parseMsg_words (S:=unit) " $HOST_READY,1*09 " tt
           ["HOST_READY"; "1"] eq_refl).
Defined.

(** X6.  [ValueError] is the only exception that leaves [_parseMsg], and
    when it does nothing has been logged: a failed checksum comparison
    never gets out, an unreadable checksum field always does. *)
Theorem parseMsg_raises_only_ValueError {S : Type} (data : string) (s : S)
    (e : exn) :
  outcome_of (run (Host._parseMsg data) s) = Raises e ->
  e = ValueError
  /\ trace_of (run (Host._parseMsg data) s) = []
  /\ Nmea.getCRC (PyStr.drop_first (PyStr.strip data)) = Raises ValueError.
Proof.
  unfold Host._parseMsg.
  destruct (String.eqb_spec (PyStr.strip data) "") as [E|_];
    [discriminate|].
  destruct (Nmea.stripNMEA (PyStr.strip data)) as [m|e'] eqn:Hs.
  - destruct (String.eqb_spec m "") as [E|Hm]; discriminate.
  - destruct (stripNMEA_raises _ _ Hs) as [(-> & _)|(-> & Hg)];
      [discriminate|].
    intros H. cbn in H. injection H as <-.
    split; [reflexivity|]. split; [reflexivity | exact Hg].
Qed.

Lemma parseMsg_raises_only_ValueError_witness :
  ValueError = ValueError
  /\ trace_of (run (S:=unit) (Host._parseMsg "$A*zz") tt) = []
  /\ Nmea.getCRC (PyStr.drop_first (PyStr.strip "$A*zz")) = Raises ValueError.
Proof.
  exact (parseMsg_raises_only_ValueError (S:=unit) "$A*zz" tt ValueError
           eq_refl).
Defined.

(** ** publisher.py *)

(** X7.  Publishing uses no subscription up: after [publish] every
    title has the subscribers it had, and a later [publish] of any
    issue makes the calls it would have made without the first. *)
Theorem publish_keeps_subscribers
    (i j : Publisher.Issue) (subs : Publisher.subscriptions) :
  (forall t, Publisher.subscribers t (fst (Publisher.publish i subs))
             = Publisher.subscribers t subs)
  /\ snd (Publisher.publish j (fst (Publisher.publish i subs)))
     = snd (Publisher.publish j subs).
Proof.
  assert (H : forall t, Publisher.subscribers t (fst (Publisher.publish i subs))
                        = Publisher.subscribers t subs).
  { intros t. unfold Publisher.publish. cbv zeta. cbn [fst].
    now rewrite !subscribers_hasTitle. }
  split; [exact H|]. now rewrite !publish_deliveries, !H.
Qed.

(** X8.  A subscription under one title is not heard under another: if
    [t] is neither the issue's title nor the wildcard key, then
    [subscribe(a, t)] changes nothing in the calls [publish] makes for
    the issue. *)
Theorem subscribe_other_title_unheard
    (a : Publisher.address) (t : string) (i : Publisher.Issue)
    (subs : Publisher.subscriptions) :
  t <> Publisher.title i -> t <> "__ALL__" ->
  snd (Publisher.publish i (Publisher.subscribe a t subs))
  = snd (Publisher.publish i subs).
Proof.
  intros Ht Hall.
  now rewrite !publish_deliveries, !subscribers_subscribe_ne.
Qed.

Lemma subscribe_other_title_unheard_witness :
  snd (Publisher.publish (Publisher.mkIssue "Spider-Man" 2)
         (Publisher.subscribe 7 "Wonder Woman"
            (Publisher.subscribe 3 "Spider-Man" Publisher.init)))
  = snd (Publisher.publish (Publisher.mkIssue "Spider-Man" 2)
           (Publisher.subscribe 3 "Spider-Man" Publisher.init)).
Proof.
  apply subscribe_other_title_unheard; discriminate.
Defined.



(** ** wifi.py: sending to the sensor host *)

(** The lines put on a connection in a trace, with their channels. *)
Definition sends (t : list event) : list (channel * string) :=
  flat_map (fun e => match e with Send ch l => [(ch, l)] | _ => [] end) t.

(** The bridge servers that start listening in a trace. *)
Definition listens (t : list event) : list (string * Z) :=
  flat_map (fun e => match e with Listen n p => [(n, p)] | _ => [] end) t.

(** A node in UART mode whose UART bridge server is not set up, with
    its AUXIO server and main connection open. *)
Definition uart_node_without_server : WiFi.WiFi_Module :=
  WiFi.mkWiFi 2 "192.168.0.12" (Some "aa:bb:cc:dd:ee:02") "ON" (Some 0%nat)
    (Some (Bridge.mkBridgeServer "auxio" 2 52739 [] true))
    None "UART" (Some 0%Z) (Some 0%Z).

Section SendFacts.

Lemma run_sendTo_uartSrv (line : string) (w : WiFi.WiFi_Module) :
  run (WiFi.sendTo_uartSrv line) w
  = (Returns tt, w,
     match WiFi.uartServer w with
     | Some srv => Bridge.send UartSrv srv line
     | None =>
         [Log ERROR ("WiFi_Module.sendTo_uartSrv(): Can't send the line ["
                     ++ line
                     ++ "] via the UART server because no connection from that node is open.")]
     end).
Proof.
  unfold WiFi.sendTo_uartSrv. rewrite run_get_bind.
  destruct (WiFi.uartServer w); reflexivity.
Qed.

Lemma run_sendScript (line : string) (w : WiFi.WiFi_Module) :
  run (WiFi.sendScript line) w
  = (Returns tt, w,
     if String.eqb (WiFi.bridge_mode w) "TREFOIL" && isSome (WiFi.uartServer w)
     then match WiFi.uartServer w with
          | Some srv => Bridge.send UartSrv srv line
          | None => []
          end
     else match WiFi.auxioServer w, WiFi.mainConn w with
          | Some auxio, _ => Bridge.send AuxioSrv auxio line
          | None, Some _ => [Send MainSrv line]
          | None, None =>
             [Log ERROR ("WiFi_Module.sendScript(): Can't send the line ["
                         ++ line
                         ++ "] to the Wi-Fi script because there are no open connections to it.")]
          end).
Proof.
  unfold WiFi.sendScript. rewrite run_get_bind.
  unfold WiFi._uartSrvConnected, WiFi._auxioSrvConnected, WiFi._mainSrvConnected.
  destruct (String.eqb (WiFi.bridge_mode w) "TREFOIL"); cbn [andb].
  - destruct (WiFi.uartServer w) as [u|] eqn:Eu; cbn [isSome].
    + rewrite run_sendTo_uartSrv, Eu. reflexivity.
    + destruct w as [num ip mac st main auxio uart bm onat seen]. cbn in *.
      destruct auxio, main; reflexivity.
  - destruct w as [num ip mac st main auxio uart bm onat seen]. cbn in *.
    destruct auxio, main; reflexivity.
Qed.

End SendFacts.


(** X11.  In UART or FLYOVER mode the bare line goes through the UART
    bridge server.  If that server is not set up, nothing is sent, even
    with the AUXIO server or the main connection open: these two modes
    have no fall-back, and the only effect is the error "I don't know
    any way to communicate". *)
Theorem sendHost_uart_modes (w : WiFi.WiFi_Module) (line : string) :
  WiFi.bridge_mode w = "UART" \/ WiFi.bridge_mode w = "FLYOVER" ->
  run (WiFi.sendHost line) w
  = (Returns tt, w,
     match WiFi.uartServer w with
     | Some srv => Bridge.send UartSrv srv line
     | None =>
         [Log ERROR ("WiFi_Module.sendHost():  I don't know any way to communicate "
                     ++ "with the sensor host in the present briding mode.  Giving up.")]
     end).
Proof.
  destruct w as [num ip mac st main auxio uart bm onat seen].
  cbn [WiFi.bridge_mode WiFi.uartServer].
  intros [-> | ->]; destruct uart; reflexivity.
Qed.

Lemma sendHost_uart_modes_witness :
  run (WiFi.sendHost "START") uart_node_without_server
  = (Returns tt, uart_node_without_server,
     [Log ERROR ("WiFi_Module.sendHost():  I don't know any way to communicate "
                 ++ "with the sensor host in the present briding mode.  Giving up.")]).
Proof.
  exact (sendHost_uart_modes uart_node_without_server "START"
           (or_introl eq_refl)).
Defined.

(** X12.  In any bridge mode other than UART, FLYOVER, DEFAULT, TREFOIL
    and NONE (the initial UNKNOWN, UNSUPPORTED, or any other string that
    was stored), [sendHost] sends nothing on any connection and logs one
    error. *)
Theorem sendHost_unknown_mode (w : WiFi.WiFi_Module) (line : string) :
  ~ In (WiFi.bridge_mode w) ["UART"; "FLYOVER"; "DEFAULT"; "TREFOIL"; "NONE"] ->
  run (WiFi.sendHost line) w
  = (Returns tt, w,
     [Log ERROR ("WiFi_Module.sendHost():  I don't know any way to communicate "
                 ++ "with the sensor host in the present briding mode.  Giving up.")]).
Proof.
  intros H. unfold WiFi.sendHost. rewrite run_get_bind.
  destruct (String.eqb_spec (WiFi.bridge_mode w) "UART") as [E|_];
    [exfalso; apply H; rewrite E; cbn; tauto|].
  destruct (String.eqb_spec (WiFi.bridge_mode w) "FLYOVER") as [E|_];
    [exfalso; apply H; rewrite E; cbn; tauto|].
  destruct (String.eqb_spec (WiFi.bridge_mode w) "DEFAULT") as [E|_];
    [exfalso; apply H; rewrite E; cbn; tauto|].
  destruct (String.eqb_spec (WiFi.bridge_mode w) "TREFOIL") as [E|_];
    [exfalso; apply H; rewrite E; cbn; tauto|].
  destruct (String.eqb_spec (WiFi.bridge_mode w) "NONE") as [E|_];
    [exfalso; apply H; rewrite E; cbn; tauto|].
  reflexivity.
Qed.

Lemma sendHost_unknown_mode_witness :
  run (WiFi.sendHost "START") (WiFi.init 1 "192.168.0.11")
  = (Returns tt, WiFi.init 1 "192.168.0.11",
     [Log ERROR ("WiFi_Module.sendHost():  I don't know any way to communicate "
                 ++ "with the sensor host in the present briding mode.  Giving up.")]).
Proof.
  apply sendHost_unknown_mode. cbn.
  intros [H|[H|[H|[H|[H|[]]]]]]; discriminate H.
Defined.

(** X13.  In NONE mode, and in TREFOIL mode while the UART bridge server
    is not set up, [sendHost] behaves as in DEFAULT mode: ["HOST " +
    line] goes over the AUXIO server if it is set up, otherwise over the
    main connection if there is one, otherwise an error is logged. *)
Theorem sendHost_without_uart (w : WiFi.WiFi_Module) (line : string) :
  WiFi.bridge_mode w = "NONE"
  \/ (WiFi.bridge_mode w = "TREFOIL" /\ WiFi.uartServer w = None) ->
  run (WiFi.sendHost line) w
  = (Returns tt, w,
     match WiFi.auxioServer w, WiFi.mainConn w with
     | Some auxio, _ => Bridge.send AuxioSrv auxio ("HOST " ++ line)
     | None, Some _ => [Send MainSrv ("HOST " ++ line)]
     | None, None =>
         [Log ERROR ("WiFi_Module.sendScript(): Can't send the line ["
                     ++ ("HOST " ++ line)
                     ++ "] to the Wi-Fi script because there are no open connections to it.")]
     end).
Proof.
  destruct w as [num ip mac st main auxio uart bm onat seen].
  cbn [WiFi.bridge_mode WiFi.uartServer WiFi.auxioServer WiFi.mainConn].
  intros [-> | [-> ->]]; destruct auxio, main; reflexivity.
Qed.

Lemma sendHost_without_uart_witness :
  run (WiFi.sendHost "START")
      (WiFi.set_bridge_mode "NONE" uart_node_without_server)
  = (Returns tt, WiFi.set_bridge_mode "NONE" uart_node_without_server,
     Bridge.send AuxioSrv (Bridge.mkBridgeServer "auxio" 2 52739 [] true)
                 "HOST START").
Proof.
  exact (sendHost_without_uart
           (WiFi.set_bridge_mode "NONE" uart_node_without_server) "START"
           (or_introl eq_refl)).
Defined.

(** X14.  [turnedOnAt(when)] always returns; it marks the module ON,
    turned on and last seen at [when], and leaves its number, addresses,
    main connection and bridge mode alone.  Afterwards both bridge
    servers exist: one that existed is kept as it is, a missing one is
    created and started, AUXIO on port [LASER_PORT + nodenum] and UART
    on port [MESON_PORT + nodenum]; exactly the missing ones start
    listening, AUXIO first. *)
Theorem turnedOnAt_effect (when : Z) (w : WiFi.WiFi_Module) :
  let r := run (WiFi.turnedOnAt when) w in
  let w' := state_of r in
  outcome_of r = Returns tt
  /\ WiFi.status w' = "ON"
  /\ WiFi.onAt w' = Some when /\ WiFi.lastSeen w' = Some when
  /\ WiFi.nodenum w' = WiFi.nodenum w /\ WiFi.ipaddr w' = WiFi.ipaddr w
  /\ WiFi.macaddr w' = WiFi.macaddr w /\ WiFi.mainConn w' = WiFi.mainConn w
  /\ WiFi.bridge_mode w' = WiFi.bridge_mode w
  /\ WiFi.auxioServer w'
     = Some (default
               (Bridge.mkBridgeServer "auxio" (WiFi.nodenum w)
                  (LASER_PORT + WiFi.nodenum w)
                  ["node" ++ fmt_d (WiFi.nodenum w) ++ ".auxio.trnscr"] true)
               (WiFi.auxioServer w))
  /\ WiFi.uartServer w'
     = Some (default
               (Bridge.mkBridgeServer "uart" (WiFi.nodenum w)
                  (MESON_PORT + WiFi.nodenum w)
                  ["node" ++ fmt_d (WiFi.nodenum w) ++ ".uart.trnscr";
                   "_UART_ConnHandler"] true)
               (WiFi.uartServer w))
  /\ listens (trace_of r)
     = (match WiFi.auxioServer w with
        | Some _ => []
        | None => [("auxio", LASER_PORT + WiFi.nodenum w)%Z]
        end
        ++ match WiFi.uartServer w with
           | Some _ => []
           | None => [("uart", MESON_PORT + WiFi.nodenum w)%Z]
           end)%list.
Proof.
  destruct w as [num ip mac st main auxio uart bm onat seen].
  destruct auxio as [a|], uart as [u|]; cbn; repeat split.
Qed.

(** ** model.py: the registry *)

Section RegistryFacts.
Import Model.

Lemma str_items_outcome (m : gmap Z SensorNode) (keys : list Z) (acc : string) :
  (exists s, str_items m keys acc = Returns s
             /\ forall j n, In j keys -> m !! j = Some n -> macaddr n <> None)
  \/ (str_items m keys acc = Raises AttributeError
      /\ exists j n, In j keys /\ m !! j = Some n /\ macaddr n = None).
Proof.
  revert acc. induction keys as [|k keys IH]; intros acc; cbn [str_items].
  - left. eexists. split; [reflexivity|]. intros j n [].
  - destruct (m !! k) as [n|] eqn:E.
    + destruct (macaddr n) as [mac|] eqn:Em.
      * destruct (IH (acc ++ "#" ++ fmt_d k ++ "(" ++ ipaddr n ++ "/" ++ mac
                          ++ "): " ++ status n ++ "; "))
          as [(s & Hs & Hall)|(Hr & j & n' & Hj & Hn & Hm)].
        -- left. exists s. split; [exact Hs|].
           intros j n' [<-|Hj] Hn; [|now apply (Hall j)].
           rewrite E in Hn. injection Hn as <-. congruence.
        -- right. split; [exact Hr|]. exists j, n'. cbn. tauto.
      * right. split; [reflexivity|]. exists k, n. cbn. tauto.
    + destruct (IH acc) as [(s & Hs & Hall)|(Hr & j & n' & Hj & Hn & Hm)].
      * left. exists s. split; [exact Hs|].
        intros j n' [<-|Hj] Hn; [congruence|now apply (Hall j)].
      * right. split; [exact Hr|]. exists j, n'. cbn. tauto.
Qed.

Lemma node_on_fields (mac : string) (when : Z) (node : SensorNode) :
  let n := node_on mac when node in
  nodenum n = nodenum node /\ ipaddr n = ipaddr node
  /\ macaddr n = Some mac /\ status n = "ON"
  /\ onAt n = Some when /\ lastSeen n = Some when
  /\ WiFi.status (wifi_module n) = "ON"
  /\ WiFi.macaddr (wifi_module n) = Some mac
  /\ isSome (WiFi.auxioServer (wifi_module n)) = true
  /\ isSome (WiFi.uartServer (wifi_module n)) = true.
Proof.
  destruct node as [num ip m st on seen [wn wi wm ws wc [a|] [u|] wb wo wl] host];
    cbn; repeat split.
Qed.

Lemma In_keys_after_add (j id : Z) (net : SensorNet) :
  In j (keys_after_add id net)
  <-> In j (order net) \/ (j = id /\ nodes net !! id = None).
Proof.
  unfold keys_after_add. destruct (nodes net !! id) as [n|]; cbn [isSome].
  - split; [tauto|]. intros [H|[_ H]]; [exact H|discriminate].
  - rewrite in_app_iff. cbn. split; intros [H|H]; try tauto.
    + right. split; [|reflexivity]. destruct H as [<-|[]]. reflexivity.
    + right. left. symmetry. tauto.
Qed.

End RegistryFacts.

(** X15.  [nodeAt(id, ip)] always returns and leaves node [id]
    registered at address [ip]; it never removes or alters another
    node, not even one that already uses that address (the warning it
    logs then says "Replacing it...", but both stay).  A node that was
    registered keeps its place in the dictionary and all but its
    address; a new one is appended, UNSEEN and without MAC address. *)
Theorem nodeAt_effect (net : Model.SensorNet) (id : Z) (ip : string) :
  let r := run (Model.nodeAt id ip) net in
  outcome_of r = Returns tt
  /\ (forall j, j <> id ->
        Model.nodes (state_of r) !! j = Model.nodes net !! j)
  /\ (exists node',
        Model.nodes (state_of r) !! id = Some node'
        /\ Model.ipaddr node' = ip
        /\ match Model.nodes net !! id with
           | Some node =>
               Model.order (state_of r) = Model.order net
               /\ Model.nodenum node' = Model.nodenum node
               /\ Model.macaddr node' = Model.macaddr node
               /\ Model.status node' = Model.status node
               /\ Model.onAt node' = Model.onAt node
               /\ Model.lastSeen node' = Model.lastSeen node
           | None =>
               Model.order (state_of r) = (Model.order net ++ [id])%list
               /\ node' = fst (Model.SensorNode_init id ip)
           end).
Proof.
  intros r. subst r. destruct (nodeAt_run id ip net) as (Ho & Hs).
  rewrite Hs. cbn [Model.nodes Model.order]. split; [exact Ho|]. split.
  - intros j Hj. now rewrite lookup_insert_ne.
  - exists (located id ip net). rewrite lookup_insert_eq.
    split; [reflexivity|]. split; [apply located_ipaddr|].
    unfold located, keys_after_add.
    destruct (Model.nodes net !! id) as [node|]; cbn [isSome]; [|now split].
    destruct (String.eqb ip (Model.ipaddr node)); [now repeat split|].
    now destruct node.
Qed.

(** X16.  After [nodeOn(num, ip, mac, when)], whether it returns or
    raises, node [num] is registered at [ip] with MAC address [mac],
    status ON, turned on and last seen at [when], its Wi-Fi module is
    ON with that MAC address and has both bridge servers; no other node
    has changed. *)
Theorem nodeOn_effect (net : Model.SensorNet) (num : Z) (ip mac : string)
    (when : Z) :
  let r := run (Model.nodeOn num ip mac when) net in
  (forall j, j <> num ->
     Model.nodes (state_of r) !! j = Model.nodes net !! j)
  /\ exists node',
       Model.nodes (state_of r) !! num = Some node'
       /\ Model.ipaddr node' = ip
       /\ Model.macaddr node' = Some mac
       /\ Model.status node' = "ON"
       /\ Model.onAt node' = Some when
       /\ Model.lastSeen node' = Some when
       /\ WiFi.status (Model.wifi_module node') = "ON"
       /\ WiFi.macaddr (Model.wifi_module node') = Some mac
       /\ isSome (WiFi.auxioServer (Model.wifi_module node')) = true
       /\ isSome (WiFi.uartServer (Model.wifi_module node')) = true.
Proof.
  intros r. subst r. destruct (nodeOn_run num ip mac when net) as (Hs & _).
  rewrite Hs. cbn [Model.nodes]. split.
  - intros j Hj. now rewrite lookup_insert_ne.
  - exists (node_on mac when (located num ip net)). rewrite lookup_insert_eq.
    split; [reflexivity|].
    destruct (node_on_fields mac when (located num ip net))
      as (_ & Hip & Hrest).
    split; [now rewrite Hip, located_ipaddr | exact Hrest].
Qed.

(** X17.  [nodeOn] ends by formatting the whole node list, which reads
    every node's MAC address.  So it raises [AttributeError] exactly
    when some other registered node has never reported a MAC address
    (one that [verifyNode] added, say), and returns otherwise; nothing
    else is raised. *)
Theorem nodeOn_outcome (net : Model.SensorNet) (num : Z) (ip mac : string)
    (when : Z) :
  let r := run (Model.nodeOn num ip mac when) net in
  (outcome_of r = Returns tt \/ outcome_of r = Raises AttributeError)
  /\ (outcome_of r = Raises AttributeError
      <-> exists j node,
            j <> num /\ In j (Model.order net)
            /\ Model.nodes net !! j = Some node
            /\ Model.macaddr node = None).
Proof.
  intros r. subst r. destruct (nodeOn_run num ip mac when net) as (Hs & Ho).
  rewrite Ho, Hs. unfold Model.__str__. cbn [Model.nodes Model.order].
  destruct (node_on_fields mac when (located num ip net))
    as (_ & _ & Hmac & _).
  destruct (str_items_outcome
              (<[num := node_on mac when (located num ip net)]> (Model.nodes net))
              (keys_after_add num net) "")
    as [(s & -> & Hall)|(-> & j & n & Hj & Hn & Hm)].
  - split; [now left|]. split; [discriminate|].
    intros (j & n & Hne & Hj & Hn & Hm). exfalso.
    apply (Hall j n); [|now rewrite lookup_insert_ne|exact Hm].
    apply In_keys_after_add. now left.
  - split; [now right|]. split; [|reflexivity]. intros _.
    destruct (decide (j = num)) as [->|Hne].
    + rewrite lookup_insert_eq in Hn. injection Hn as <-. congruence.
    + rewrite lookup_insert_ne in Hn by congruence.
      exists j, n. repeat split; try assumption.
      apply In_keys_after_add in Hj as [Hj|[Hj _]]; [exact Hj|contradiction].
Qed.

(** ** model.py: the registry *)

Section Keeps.
Context {S : Type} (P : S -> Prop).

(** [m] keeps [P]: from a state where [P] holds, [m] ends in one, however
    it ends. *)
Definition keeps {A} (m : M S A) : Prop :=
  forall s, P s -> P (state_of (run m s)).

Lemma keeps_bind {A B} (m : M S A) (k : A -> M S B) :
  keeps m -> (forall a, keeps (k a)) -> keeps (m ≫= k).
Proof.
  intros Hm Hk s Hs. rewrite run_bind. specialize (Hm s Hs).
  destruct (outcome_of (run m s)) as [a|e]; [|exact Hm].
  apply (Hk a). exact Hm.
Qed.

Lemma keeps_ret {A} (a : A) : keeps (mret a).
Proof. intros s Hs. exact Hs. Qed.

Lemma keeps_get : keeps get.
Proof. intros s Hs. exact Hs. Qed.

Lemma keeps_emits (t : list event) : keeps (emits t).
Proof. intros s Hs. exact Hs. Qed.

Lemma keeps_raise {A} (e : exn) : keeps (raise (A:=A) e).
Proof. intros s Hs. exact Hs. Qed.

Lemma keeps_modify (f : S -> S) : (forall s, P s -> P (f s)) -> keeps (modify f).
Proof. intros Hf s Hs. apply Hf, Hs. Qed.

Lemma keeps_try_except {A} (m : M S A) (h : exn -> M S A) :
  keeps m -> (forall e, keeps (h e)) -> keeps (try_except m h).
Proof.
  intros Hm Hh s Hs. specialize (Hm s Hs). cbn [run try_except].
  destruct (outcome_of (run m s)) as [a|e]; [exact Hm|].
  apply (Hh e). exact Hm.
Qed.

End Keeps.

Ltac keeps_step :=
  lazymatch goal with
  | |- keeps _ (_ ≫= _) => apply keeps_bind; [|intros ?]
  | |- keeps _ (try_except _ _) => apply keeps_try_except; [|intros ?]
  | |- keeps _ (mret _) => apply keeps_ret
  | |- keeps _ skip => apply keeps_ret
  | |- keeps _ get => apply keeps_get
  | |- keeps _ (emits _) => apply keeps_emits
  | |- keeps _ (emit _) => apply keeps_emits
  | |- keeps _ (log _ _) => apply keeps_emits
  | |- keeps _ (raise _) => apply keeps_raise
  | |- keeps _ (let _ := _ in _) => cbv zeta
  | |- keeps _ (match ?x with _ => _ end) => destruct x
  end.

Section RegistryInvariant.
Import Model.

Definition server_ok (name : string) (base num : Z)
           (o : option Bridge.BridgeServer) : Prop :=
  match o with
  | Some s =>
      Bridge.name s = name /\ Bridge.nodeID s = num
      /\ Bridge.port s = (base + num)%Z /\ Bridge.listening s = true
  | None => True
  end.

(** A node as it is stored under the key [id]. *)
Definition node_ok (id : Z) (n : SensorNode) : Prop :=
  nodenum n = id
  /\ WiFi.nodenum (wifi_module n) = id
  /\ WiFi.ipaddr (wifi_module n) = ipaddr n
  /\ WiFi.macaddr (wifi_module n) = macaddr n
  /\ server_ok "auxio" LASER_PORT id (WiFi.auxioServer (wifi_module n))
  /\ server_ok "uart" MESON_PORT id (WiFi.uartServer (wifi_module n)).

Definition registry_ok (net : SensorNet) : Prop :=
  NoDup (order net)
  /\ (forall id, In id (order net) <-> is_Some (nodes net !! id))
  /\ (forall id n, nodes net !! id = Some n -> node_ok id n).

Lemma registry_ok_init : registry_ok SensorNet_init.
Proof.
  split; [constructor|]. split.
  - intros id. cbn. rewrite lookup_empty. split; [intros []|intros [x Hx]; discriminate].
  - intros id n H. cbn in H. rewrite lookup_empty in H. discriminate.
Qed.

Lemma keeps_on_node {A} (id : Z) (m : M SensorNode A) :
  keeps (node_ok id) m -> keeps registry_ok (on_node id m).
Proof.
  intros Hm net (Hnd & Hdom & Hok). cbn [run on_node].
  destruct (nodes net !! id) as [node|] eqn:E; cbn [state_of fst snd];
    [|exact (conj Hnd (conj Hdom Hok))].
  split; [exact Hnd|]. cbn [nodes order]. split.
  - intros j. rewrite Hdom. destruct (decide (j = id)) as [->|Hne].
    + rewrite lookup_insert_eq, E. split; intros _; eauto.
    + now rewrite lookup_insert_ne.
  - intros j n. destruct (decide (j = id)) as [->|Hne].
    + rewrite lookup_insert_eq. intros [= <-]. apply Hm, (Hok id node E).
    + rewrite lookup_insert_ne by congruence. apply Hok.
Qed.

Lemma registry_ok_set_node (id : Z) (node : SensorNode) (net : SensorNet) :
  node_ok id node -> registry_ok net -> registry_ok (set_node id node net).
Proof.
  intros Hn (Hnd & Hdom & Hok). unfold set_node.
  destruct (nodes net !! id) as [old|] eqn:E; cbn [isSome].
  - split; [exact Hnd|]. cbn [nodes order]. split.
    + intros j. rewrite Hdom. destruct (decide (j = id)) as [->|Hne].
      * rewrite lookup_insert_eq, E. split; intros _; eauto.
      * now rewrite lookup_insert_ne.
    + intros j n. destruct (decide (j = id)) as [->|Hne].
      * rewrite lookup_insert_eq. now intros [= <-].
      * rewrite lookup_insert_ne by congruence. apply Hok.
  - assert (Hfresh : ~ In id (order net)).
    { rewrite Hdom, E. intros [x Hx]. discriminate. }
    unfold registry_ok. cbn [nodes order]. split.
    + apply NoDup_app. split; [exact Hnd|]. split; [|apply NoDup_singleton].
      intros j Hj Hid. apply list_elem_of_singleton in Hid. subst j.
      apply Hfresh, list_elem_of_In, Hj.
    + split.
      * intros j. rewrite in_app_iff, Hdom. cbn [In].
        destruct (decide (j = id)) as [->|Hne].
        -- rewrite lookup_insert_eq. split; intros _; eauto.
        -- rewrite lookup_insert_ne by congruence.
           split; [intros [H|[H|[]]]; [exact H|congruence]|tauto].
      * intros j n. destruct (decide (j = id)) as [->|Hne].
        -- rewrite lookup_insert_eq. now intros [= <-].
        -- rewrite lookup_insert_ne by congruence. apply Hok.
Qed.

Lemma node_ok_init (id : Z) (ip : string) :
  node_ok id (fst (SensorNode_init id ip)).
Proof. repeat split. Qed.

Lemma keeps_reloc (id : Z) (ip : string) : keeps (node_ok id) (reloc ip).
Proof.
  intros [num i m st on seen [wn wi wm ws wc a u wb wo wl] host] H.
  unfold node_ok in *. cbn in *. tauto.
Qed.

Lemma keeps_isOn (id : Z) : keeps (node_ok id) isOn.
Proof. intros [num i m st on seen w host] H. exact H. Qed.

Lemma keeps_sawAt (id : Z) (when : Z) : keeps (node_ok id) (sawAt when).
Proof.
  intros n H. rewrite run_sawAt. cbn [state_of fst snd].
  destruct n as [num i m st on seen w host]. exact H.
Qed.

Lemma keeps_setMac (id : Z) (mac : string) : keeps (node_ok id) (setMac mac).
Proof.
  intros [num i m st on seen [wn wi wm ws wc a u wb wo wl] host] H.
  cbn in *. unfold node_ok in *. cbn in *. tauto.
Qed.

Lemma keeps_turnOn (id : Z) (when : Z) : keeps (node_ok id) (turnOn when).
Proof.
  intros [num i m st on seen [wn wi wm ws wc a u wb wo wl] host] H.
  unfold node_ok in *. cbn in H. destruct H as (-> & -> & -> & -> & Ha & Hu).
  destruct a as [a|], u as [u|]; cbn in Ha, Hu |- *;
    repeat split; try reflexivity; tauto.
Qed.

Lemma keeps_bridgeMode_is (id : Z) (bm : string) :
  keeps (node_ok id) (on_wifi (WiFi.bridgeMode_is bm)).
Proof.
  intros [num i m st on seen [wn wi wm ws wc a u wb wo wl] host] H.
  exact H.
Qed.

Lemma keeps_nodeAt (id : Z) (ip : string) : keeps registry_ok (nodeAt id ip).
Proof.
  unfold nodeAt. repeat keeps_step.
  all: try (apply keeps_on_node, keeps_reloc).
  all: apply keeps_modify; intros net; apply registry_ok_set_node, node_ok_init.
Qed.

End RegistryInvariant.

Ltac keeps_node :=
  lazymatch goal with
  | |- keeps _ (Model.nodeAt _ _) => apply keeps_nodeAt
  | |- keeps _ (Model.on_node _ Model.isOn) => apply keeps_on_node, keeps_isOn
  | |- keeps _ (Model.on_node _ (Model.sawAt _)) =>
      apply keeps_on_node, keeps_sawAt
  | |- keeps _ (Model.on_node _ (Model.setMac _)) =>
      apply keeps_on_node, keeps_setMac
  | |- keeps _ (Model.on_node _ (Model.turnOn _)) =>
      apply keeps_on_node, keeps_turnOn
  | |- keeps _ (Model.on_node _ (Model.on_wifi (WiFi.bridgeMode_is _))) =>
      apply keeps_on_node, keeps_bridgeMode_is
  | _ => keeps_step
  end.

Lemma keeps_verifyNode (id : Z) (ip : string) (when : Z) :
  keeps registry_ok (Model.verifyNode id ip when).
Proof. unfold Model.verifyNode. repeat keeps_node. Qed.

Lemma keeps_nodeOn (num : Z) (ip mac : string) (when : Z) :
  keeps registry_ok (Model.nodeOn num ip mac when).
Proof. unfold Model.nodeOn, Model.logNode. repeat keeps_node. Qed.

Ltac keeps_command :=
  lazymatch goal with
  | |- keeps _ (Model.verifyNode _ _ _) => apply keeps_verifyNode
  | |- keeps _ (Model.nodeOn _ _ _ _) => apply keeps_nodeOn
  | _ => keeps_node
  end.

Section CommandInvariant.
Import Commands.

Lemma keeps_dispatch_command (cmd : Command) :
  keeps registry_ok (dispatch_command cmd).
Proof.
  unfold dispatch_command, handleNodeOn, handleLogMsg, handleHeartbeat,
    handleBridgeMode, get_nodeNum.
  repeat keeps_command.
Qed.

Lemma keeps_process (msg : Message) : keeps registry_ok (process msg).
Proof.
  unfold process. destruct (Command_init msg) as [cmd|e].
  - cbv zeta. apply keeps_bind; [apply keeps_emits|intros _].
    apply keeps_bind; [|intros _; apply keeps_emits].
    apply keeps_try_except; [apply keeps_dispatch_command|].
    intros e. apply keeps_emits.
  - apply keeps_emits.
Qed.

Lemma keeps_process_all (ip : string) (lines : list (Z * string)) :
  keeps registry_ok (process_all ip lines).
Proof.
  induction lines as [|[t line] rest IH]; cbn [process_all].
  - apply keeps_ret.
  - apply keeps_bind; [apply keeps_process | intros _; exact IH].
Qed.

End CommandInvariant.

(** X18.  The three registry methods keep the registry well formed:
    the key list has no repetition and lists exactly the registered
    nodes, every node is stored under its own number, its Wi-Fi module
    carries the same number, IP address and MAC address, and a bridge
    server it has listens on [LASER_PORT + number] (AUXIO) or
    [MESON_PORT + number] (UART). *)
Theorem registry_methods_keep_invariant (net : Model.SensorNet)
    (id : Z) (ip mac : string) (when : Z) :
  registry_ok net ->
  registry_ok (state_of (run (Model.nodeAt id ip) net))
  /\ registry_ok (state_of (run (Model.verifyNode id ip when) net))
  /\ registry_ok (state_of (run (Model.nodeOn id ip mac when) net)).
Proof.
  intros H. split; [|split].
  - now apply keeps_nodeAt.
  - now apply keeps_verifyNode.
  - now apply keeps_nodeOn.
Qed.

Lemma registry_methods_keep_invariant_witness :
  registry_ok (state_of (run (Model.nodeAt 1 "192.168.0.11") Model.SensorNet_init))
  /\ registry_ok (state_of (run (Model.verifyNode 1 "192.168.0.11" 5)
                              Model.SensorNet_init))
  /\ registry_ok (state_of (run (Model.nodeOn 1 "192.168.0.11"
                                   "aa:bb:cc:dd:ee:01" 5)
                              Model.SensorNet_init)).
Proof.
  exact (registry_methods_keep_invariant Model.SensorNet_init 1
           "192.168.0.11" "aa:bb:cc:dd:ee:01" 5 registry_ok_init).
Defined.

(** X19.  Whatever line arrives from whatever address, [process]
    leaves a well-formed registry well formed; this holds when the
    handler raised, too, since what it changed before stays changed. *)
Theorem process_keeps_registry_ok (msg : Commands.Message)
    (net : Model.SensorNet) :
  registry_ok net ->
  registry_ok (state_of (run (Commands.process msg) net)).
Proof. apply keeps_process. Qed.

Lemma process_keeps_registry_ok_witness :
  registry_ok
    (state_of (run (Commands.process
                      (Commands.mkMessage "HEARTBEAT 3 17" "192.168.0.13" 9))
                   Model.SensorNet_init)).
Proof.
  exact (process_keeps_registry_ok
           (Commands.mkMessage "HEARTBEAT 3 17" "192.168.0.13" 9)
           Model.SensorNet_init registry_ok_init).
Defined.

Section ProcessFacts.
Context {S : Type}.

Lemma try_log_outcome (m : M S unit) (lvl : level) (f : exn -> string) (s : S) :
  outcome_of (run (try_except m (fun e => log lvl (f e))) s) = Returns tt.
Proof.
  cbn [run try_except]. destruct (run m s) as [[[[]|e] s'] t]; reflexivity.
Qed.

Lemma try_log_state (m : M S unit) (lvl : level) (f : exn -> string) (s : S) :
  state_of (run (try_except m (fun e => log lvl (f e))) s)
  = state_of (run m s).
Proof.
  cbn [run try_except]. destruct (run m s) as [[[[]|e] s'] t]; reflexivity.
Qed.

Lemma bind_emit_state {A} (m : M S A) (e : event) (s : S) :
  state_of (run (m ;; emit e) s) = state_of (run m s).
Proof.
  rewrite run_bind. destruct (run m s) as [[[a|x] s'] t]; reflexivity.
Qed.

Lemma bind_emit_outcome (m : M S unit) (e : event) (s : S) :
  outcome_of (run m s) = Returns tt ->
  outcome_of (run (m ;; emit e) s) = Returns tt
  /\ last (trace_of (run (m ;; emit e) s)) = Some e.
Proof.
  intros H. rewrite run_bind, H. project. cbn [run emit emits].
  cbn [outcome_of state_of trace_of fst snd]. split; [reflexivity|].
  apply last_snoc.
Qed.

End ProcessFacts.

Lemma process_state (msg : Commands.Message) (cmd : Commands.Command)
    (net : Model.SensorNet) :
  Commands.Command_init msg = Returns cmd ->
  state_of (run (Commands.process msg) net)
  = state_of (run (Commands.dispatch_command
                     (state_of (run Commands.parseNodeNum cmd))) net).
Proof.
  intros H. unfold Commands.process. rewrite H. cbv zeta.
  rewrite run_emits_bind. project.
  now rewrite bind_emit_state, try_log_state.
Qed.


Section ParseNodeNumFacts.
Import Commands.

Lemma parseNodeNum_keeps_name (cmd : Command) :
  cmdName (state_of (run parseNodeNum cmd)) = cmdName cmd
  /\ msg (state_of (run parseNodeNum cmd)) = msg cmd
  /\ cmdString (state_of (run parseNodeNum cmd)) = cmdString cmd.
Proof.
  unfold parseNodeNum. rewrite run_get_bind.
  destruct (cmdArgs cmd) as [|first rest]; [now cbn|].
  destruct (PyStr.int_base10 first) as [n|e]; now cbn.
Qed.

Lemma parseNodeNum_not_integer (cmd : Command) (first : string)
      (rest : list string) (e : exn) :
  cmdArgs cmd = first :: rest ->
  PyStr.int_base10 first = Raises e ->
  state_of (run parseNodeNum cmd) = set_nodeNum (Some (-1)%Z) cmd.
Proof.
  intros Ha Hi. unfold parseNodeNum. rewrite run_get_bind, Ha, Hi.
  reflexivity.
Qed.

End ParseNodeNumFacts.

(** X21.  A line whose command word is not one of POWERED_ON, LOGMSG,
    HEARTBEAT and BRIDGE_MODE (an unknown word, or one of the commands
    that are listed but not implemented) leaves the registry exactly as
    it was, whatever its arguments. *)
Theorem process_other_command_keeps_registry (msg : Commands.Message)
    (cmd : Commands.Command) (net : Model.SensorNet) :
  Commands.Command_init msg = Returns cmd ->
  ~ In (Commands.cmdName cmd)
       ["POWERED_ON"; "LOGMSG"; "HEARTBEAT"; "BRIDGE_MODE"] ->
  state_of (run (Commands.process msg) net) = net.
Proof.
  intros Hc Hn. rewrite (process_state msg cmd net Hc).
  unfold Commands.dispatch_command.
  destruct (parseNodeNum_keeps_name cmd) as (-> & _ & _).
  destruct (String.eqb_spec (Commands.cmdName cmd) "POWERED_ON") as [E|_];
    [exfalso; apply Hn; rewrite E; cbn; tauto|].
  destruct (String.eqb_spec (Commands.cmdName cmd) "LOGMSG") as [E|_];
    [exfalso; apply Hn; rewrite E; cbn; tauto|].
  destruct (String.eqb_spec (Commands.cmdName cmd) "HEARTBEAT") as [E|_];
    [exfalso; apply Hn; rewrite E; cbn; tauto|].
  destruct (String.eqb_spec (Commands.cmdName cmd) "BRIDGE_MODE") as [E|_];
    [exfalso; apply Hn; rewrite E; cbn; tauto|].
  repeat match goal with
         | |- context [if ?b then _ else _] => destruct b
         end; reflexivity.
Qed.

Lemma process_other_command_keeps_registry_witness :
  state_of (run (Commands.process
                   (Commands.mkMessage "PULSE_DATA 1 2 3" "192.168.0.11" 7))
                net_with_node1)
  = net_with_node1.
Proof.
  refine (process_other_command_keeps_registry
            (Commands.mkMessage "PULSE_DATA 1 2 3" "192.168.0.11" 7)
            _ net_with_node1 eq_refl _).
  cbn. intros [H|[H|[H|[H|[]]]]]; discriminate H.
Defined.

(** X22.  With the wrong number of arguments POWERED_ON (not 2),
    HEARTBEAT (not 1) and LOGMSG (fewer than 3) do not touch the
    registry; HEARTBEAT and LOGMSG return after one error line. *)
Theorem wrong_arity_keeps_registry (cmd : Commands.Command)
    (net : Model.SensorNet) :
  (List.length (Commands.cmdArgs cmd) <> 2%nat ->
   state_of (run (Commands.handleNodeOn cmd) net) = net)
  /\ (List.length (Commands.cmdArgs cmd) <> 1%nat ->
      run (Commands.handleHeartbeat cmd) net
      = (Returns tt, net,
         [Log ERROR ("HEARTBEAT has "
                     ++ fmt_d (Z.of_nat (List.length (Commands.cmdArgs cmd)))
                     ++ " arguments after node id; 1 was expected.  Ignoring command.")]))
  /\ ((List.length (Commands.cmdArgs cmd) < 3)%nat ->
      outcome_of (run (Commands.handleLogMsg cmd) net) = Returns tt
      /\ state_of (run (Commands.handleLogMsg cmd) net) = net).
Proof.
  unfold Commands.handleNodeOn, Commands.handleHeartbeat, Commands.handleLogMsg.
  destruct (Commands.cmdArgs cmd) as [|a [|b [|c l]]]; cbn [List.length];
    (split; [|split]); intros H; try reflexivity; try lia; try congruence;
    split; reflexivity.
Qed.

Lemma wrong_arity_keeps_registry_witness :
  state_of (run (Commands.handleNodeOn
                   (Commands.mkCommand
                      (Commands.mkMessage "POWERED_ON 1 192.168.0.11" "192.168.0.11" 7)
                      "POWERED_ON 1 192.168.0.11"
                      ["POWERED_ON"; "1"; "192.168.0.11"]
                      "POWERED_ON" ["192.168.0.11"] (Some 1%Z)))
                Model.SensorNet_init)
  = Model.SensorNet_init.
Proof.
  refine (proj1 (wrong_arity_keeps_registry _ Model.SensorNet_init) _).
  cbn. lia.
Defined.


(** X23.  BRIDGE_MODE is applied even when it is reported as ignored:
    with extra arguments after the mode the error "... Ignoring
    command." is logged, and yet the node's bridge mode becomes the
    first argument, as it does with exactly one argument.  With no
    argument left the handler raises [IndexError] and changes
    nothing. *)
Theorem handleBridgeMode_not_ignored (cmd : Commands.Command) (num : Z)
    (net : Model.SensorNet) :
  Commands.nodeNum cmd = Some num ->
  let r := run (Commands.handleBridgeMode cmd) net in
  match Commands.cmdArgs cmd with
  | [] => outcome_of r = Raises IndexError /\ state_of r = net
  | arg_bmstr :: rest =>
      outcome_of r = Returns tt
      /\ Commands.bridgeMode_of num (state_of r) = Some arg_bmstr
      /\ (rest <> [] ->
          In (Log ERROR
                ("BRIDGE_MODE has "
                 ++ fmt_d (Z.of_nat (List.length (Commands.cmdArgs cmd)))
                 ++ " arguments after node id; 1 was expected.  Ignoring command."))
             (trace_of r))
  end.
Proof.
  intros Hn r. subst r. unfold Commands.handleBridgeMode, Commands.get_nodeNum.
  rewrite Hn. destruct (Commands.cmdArgs cmd) as [|a rest] eqn:Ha.
  - cbn [List.length Nat.eqb negb]. rewrite run_log_bind, run_mret_bind.
    project. cbn [run raise]. now split.
  - destruct (verifyNode_registers net num
                (Commands.sender_ip (Commands.msg cmd))
                (Commands.time (Commands.msg cmd))) as (node & T & R).
    assert (Hrun : forall t0,
      let r := prepend t0
                 (run (mret num ≫= fun arg_nodenum =>
                         Model.verifyNode arg_nodenum
                           (Commands.sender_ip (Commands.msg cmd))
                           (Commands.time (Commands.msg cmd));;
                         log NORMAL ("Node " ++ fmt_d arg_nodenum
                                     ++ " reports that its bridging mode has changed to "
                                     ++ a ++ ".");;
                         Model.on_node arg_nodenum
                           (Model.on_wifi (WiFi.bridgeMode_is a))) net) in
      outcome_of r = Returns tt
      /\ Commands.bridgeMode_of num (state_of r) = Some a).
    { intros t0. rewrite run_mret_bind.
      rewrite (run_bind_returns _ _ _ _ _ _ R). repeat step.
      rewrite (run_on_node num _ _ node)
        by (cbn [Model.nodes]; apply lookup_insert_eq).
      project. split; [reflexivity|].
      unfold Commands.bridgeMode_of. cbn [Model.nodes].
      rewrite lookup_insert_eq. reflexivity. }
    destruct rest as [|b rest]; cbn [List.length Nat.eqb negb].
    + rewrite run_skip_bind. destruct (Hrun []) as (Ho & Hb).
      rewrite prepend_nil in Ho, Hb. cbv zeta.
      split; [exact Ho|]. split; [exact Hb|]. congruence.
    + rewrite run_log_bind. cbv zeta.
      match goal with
      | |- context [prepend ?t _] => destruct (Hrun t) as (Ho & Hb)
      end.
      split; [exact Ho|]. split; [exact Hb|]. intros _.
      unfold prepend. cbn [trace_of snd]. now left.
Qed.

Lemma handleBridgeMode_not_ignored_witness :
  outcome_of (run (Commands.handleBridgeMode
                     (Commands.mkCommand
                        (Commands.mkMessage "BRIDGE_MODE 1 TREFOIL now"
                                            "192.168.0.11" 7)
                        "BRIDGE_MODE 1 TREFOIL now"
                        ["BRIDGE_MODE"; "1"; "TREFOIL"; "now"]
                        "BRIDGE_MODE" ["TREFOIL"; "now"] (Some 1%Z)))
                  net_with_node1) = Returns tt
  /\ Commands.bridgeMode_of 1
       (state_of (run (Commands.handleBridgeMode
                         (Commands.mkCommand
                            (Commands.mkMessage "BRIDGE_MODE 1 TREFOIL now"
                                                "192.168.0.11" 7)
                            "BRIDGE_MODE 1 TREFOIL now"
                            ["BRIDGE_MODE"; "1"; "TREFOIL"; "now"]
                            "BRIDGE_MODE" ["TREFOIL"; "now"] (Some 1%Z)))
                      net_with_node1)) = Some "TREFOIL".
Proof.
  pose proof (handleBridgeMode_not_ignored
                (Commands.mkCommand
                   (Commands.mkMessage "BRIDGE_MODE 1 TREFOIL now"
                                       "192.168.0.11" 7)
                   "BRIDGE_MODE 1 TREFOIL now"
                   ["BRIDGE_MODE"; "1"; "TREFOIL"; "now"]
                   "BRIDGE_MODE" ["TREFOIL"; "now"] (Some 1%Z))
                1 net_with_node1 eq_refl) as H.
  cbv zeta in H. cbn [Commands.cmdArgs] in H.
  destruct H as (Ho & Hb & _). split; [exact Ho | exact Hb].
Defined.



(* ===================================================================== *)
(** * gps.py: the GPS module and its manager *)
(* ===================================================================== *)

(** The GPS code talks to objects whose classes are not among the
    sources ([flag.Flag], [utils.WatchBox], the system clock) and waits
    on them.  A method is therefore a tree of effects and of questions
    put to the environment; [exec] runs it against the answers of one
    environment.  Time differences are in microseconds, the resolution
    of [datetime.timedelta]. *)

Module Gps.

Record GPGGA_Record : Type := mkGPGGA {
  PosUTC : string; Lat : string; LatRef : string; Lon : string;
  LonRef : string; Qual : string; NbSat : string; HDOP : string;
  AltMsl : string; Meters_1 : string; GeoidSep : string;
  Meters_2 : string; Null_1 : string; Null_2 : string
}.

Inductive gps_event : Type :=
  | GLog (lvl : level) (text : string)
  | Published (title : string) (content : GPGGA_Record)
                                   (* publisher.publish(Issue(title, content)) *)
  | FlagRise (f : string)          (* f.rise() *)
  | FlagFall (f : string)          (* f.fall() *)
  | HostSendLine (line : string)   (* node.sensor_host.sendLine(line) *)
  | InitPosTime                    (* gps_module.initPosTime(pos, time) *)
  | Waited (f : string) (target : bool) (timeout : option Z) (reached : bool)
                                   (* f.waitUp(timeout) or f.waitFall(timeout), and its result *)
  | InboxWaited (box : string).    (* box.wait() returned *)

(** The attributes of [GPS_Module] that [_handleGPGGA] uses. *)
Record GPS_Module : Type := mkGPS {
  nSats : option Z;
  last_nSats : option Z;
  gotSats : bool;
  gpgga_inbox : option GPGGA_Record
}.

(** [GPS_Module.__init__] *)
Definition init : GPS_Module := mkGPS None None false None.

Definition _handleGPGGA (msgWords : list string) (this : GPS_Module)
  : result unit * GPS_Module * list gps_event :=
  let nArgs := (Z.of_nat (List.length msgWords) - 1)%Z in
  if negb (nArgs =? 14)%Z then
    (Returns tt, this,
     [GLog ERROR ("GPS_Module:_handleGPGGA(): I expected the $GPGGA message to have "
                  ++ "14 arguments but I received " ++ fmt_d nArgs
                  ++ ".  Ignoring message...")])
  else
    match msgWords with
    | _ :: w1 :: w2 :: w3 :: w4 :: w5 :: w6 :: w7 :: w8 :: w9 :: w10 :: w11
        :: w12 :: w13 :: w14 :: _ =>
        let gpgga_rec :=
          mkGPGGA w1 w2 w3 w4 w5 w6 w7 w8 w9 w10 w11 w12 w13 w14 in
        match PyStr.int_base10 (NbSat gpgga_rec) with
        | Raises e => (Raises e, this, [])
        | Returns n =>
            let this := mkGPS (Some n) (last_nSats this) (gotSats this)
                              (gpgga_inbox this) in
            let '(this, logs) :=
              if negb (bool_decide (nSats this = last_nSats this)) then
                (mkGPS (nSats this) (nSats this) (gotSats this)
                       (gpgga_inbox this),
                 [if (n =? 0)%Z then
                    GLog WARNING "GPS_Module:_handleGPGGA():  I'm not receiving a GPS signal from any satellites."
                  else
                    GLog INFO ("GPS_Module:_handleGPGGA():  Now receiving GPS data from "
                               ++ fmt_d n ++ " satellites.")])
              else if (n =? 0)%Z then
                (this,
                 [GLog WARNING "GPS_Module:_handleGPGGA():  Still no satellites..."])
              else (this, []) in
            let this := mkGPS (nSats this) (last_nSats this) (1 <=? n)%Z
                              (gpgga_inbox this) in
            let this := mkGPS (nSats this) (last_nSats this) (gotSats this)
                              (Some gpgga_rec) in
            (Returns tt, this, (logs ++ [Published "GPGGA" gpgga_rec])%list)
        end
    | _ => (Raises IndexError, this, [])
    end.

(** ** Methods that wait *)

Inductive prog (A : Type) : Type :=
  | Ret (a : A)
  | Raise (e : exn)
  | Emit (e : gps_event) (k : prog A)
  | WaitFlag (f : string) (target : bool) (timeout : option Z)
             (k : bool -> prog A)
  | InboxWait (box : string) (k : prog A)
  | PdmeWait (k : string * string -> prog A)
      (* pdme_inbox.wait(): the record's cmdCode and ok *)
  | ReadNSats (k : option Z -> prog A)      (* gps_module.nSats *)
  | FlagTruth (f : string) (k : bool -> prog A)
      (* the flag object [f] used as a condition *)
  | Delta (k : Z -> prog A)
      (* gprmc_rec.extract_datetime() - datetime.utcnow() *)
  | UtcNow (k : string -> prog A).          (* "%s" % datetime.utcnow() *)

Arguments Ret {A} a.
Arguments Raise {A} e.
Arguments Emit {A} e k.
Arguments WaitFlag {A} f target timeout k.
Arguments InboxWait {A} box k.
Arguments PdmeWait {A} k.
Arguments ReadNSats {A} k.
Arguments FlagTruth {A} f k.
Arguments Delta {A} k.
Arguments UtcNow {A} k.

Fixpoint bind {A B} (p : prog A) (h : A -> prog B) : prog B :=
  match p with
  | Ret a => h a
  | Raise e => Raise e
  | Emit e k => Emit e (bind k h)
  | WaitFlag f target timeout k =>
      WaitFlag f target timeout (fun b => bind (k b) h)
  | InboxWait box k => InboxWait box (bind k h)
  | PdmeWait k => PdmeWait (fun r => bind (k r) h)
  | ReadNSats k => ReadNSats (fun n => bind (k n) h)
  | FlagTruth f k => FlagTruth f (fun b => bind (k b) h)
  | Delta k => Delta (fun d => bind (k d) h)
  | UtcNow k => UtcNow (fun s => bind (k s) h)
  end.

#[export] Instance prog_ret : MRet prog := fun A a => Ret a.
#[export] Instance prog_bind : MBind prog := fun A B h p => bind p h.

Definition glog (lvl : level) (text : string) : prog unit :=
  Emit (GLog lvl text) (Ret tt).
Definition emit_ (e : gps_event) : prog unit := Emit e (Ret tt).
Definition waitUp (f : string) (timeout : option Z) : prog bool :=
  WaitFlag f true timeout Ret.
Definition waitFall (f : string) : prog bool :=
  WaitFlag f false None Ret.

(** What one environment answers; the questions of a run are numbered,
    and the [n]-th question gets the answer at [n]: whether the flag
    waited for gets there (in time), whether the inbox gets a message,
    and the values read.  A wait without timeout whose flag never gets
    there, or on an inbox that gets no message, does not return. *)
Record env : Type := mkEnv {
  flag_reached : string -> nat -> bool;
  inbox_has : string -> nat -> bool;
  pdme : nat -> option (string * string);
  the_nSats : nat -> option Z;
  truth : nat -> bool;
  delta : nat -> Z;
  now : nat -> string
}.

Inductive outcome (A : Type) : Type :=
  | Finished (r : result A)
  | Blocked.

Arguments Finished {A} r.
Arguments Blocked {A}.

(** The result of a run: the trace, how the run ended, and the number
    of questions asked. *)
Fixpoint exec {A} (p : prog A) (E : env) (n : nat)
  : list gps_event * outcome A * nat :=
  match p with
  | Ret a => ([], Finished (Returns a), n)
  | Raise e => ([], Finished (Raises e), n)
  | Emit e k => let '(t, o, m) := exec k E n in (e :: t, o, m)
  | WaitFlag f target timeout k =>
      let b := flag_reached E f n in
      match timeout, b with
      | None, false => ([Waited f target None false], Blocked, S n)
      | _, _ =>
          let '(t, o, m) := exec (k b) E (S n) in
          (Waited f target timeout b :: t, o, m)
      end
  | InboxWait box k =>
      if inbox_has E box n then
        let '(t, o, m) := exec k E (S n) in (InboxWaited box :: t, o, m)
      else ([], Blocked, S n)
  | PdmeWait k =>
      match pdme E n with
      | Some rec =>
          let '(t, o, m) := exec (k rec) E (S n) in
          (InboxWaited "pdme" :: t, o, m)
      | None => ([], Blocked, S n)
      end
  | ReadNSats k => exec (k (the_nSats E n)) E (S n)
  | FlagTruth f k => exec (k (truth E n)) E (S n)
  | Delta k => exec (k (delta E n)) E (S n)
  | UtcNow k => exec (k (now E n)) E (S n)
  end.

Definition trace_of_run {A} (r : list gps_event * outcome A * nat)
  : list gps_event := fst (fst r).
Definition outcome_of_run {A} (r : list gps_event * outcome A * nat)
  : outcome A := snd (fst r).

(** *** GPS_Module: commands to the GPS *)

Definition _PDME_COLD_START : Z := 0.
Definition _PDME_WARM_START : Z := 1.
Definition _PDME_HOT_START : Z := 2.

Definition sendLine (line : string) : prog unit :=
  emit_ (HostSendLine ("GPS " ++ line)).

Definition _send_PDME_cmd (cmdCode : Z) (args : list string) : prog unit :=
  let cmdWords := ["PDME"; fmt_d cmdCode] in
  let cmdWords := (firstn 2 cmdWords ++ args)%list in
  let cmdStr := Host.unsplit cmdWords "," in
  let sentence := Nmea.makeNMEA cmdStr false in
  sendLine sentence.

Definition _wait_PDME_conf (cmdcode : Z) : prog unit :=
  if (_PDME_COLD_START <=? cmdcode)%Z && (cmdcode <=? _PDME_HOT_START)%Z then
    glog INFO "GPS_Module._wait_PDME_conf():  Waiting for the GPS module to finish resetting...";;
    waitFall "resetting";;
    glog INFO ("GPS_Module._wait_PDME_conf():  PDME command " ++ fmt_d cmdcode
               ++ " confirmed by a completed reset.")
  else
    glog INFO "GPS_Module._wait_PDME_conf():  Waiting to get a PDME command return...";;
    PdmeWait (fun pdme_rec =>
      match PyStr.int_base10 (fst pdme_rec) with
      | Raises e => Raise e
      | Returns last_cmd =>
          let cmd_ok := snd pdme_rec in
          if negb (last_cmd =? cmdcode)%Z then
            glog ERROR ("GPS_Module._wait_PDME_conf(): Was waiting for PDME command "
                        ++ fmt_d cmdcode ++ " to be confirmed, but got PDME command "
                        ++ fmt_d last_cmd ++ " instead!")
          else if negb (String.eqb cmd_ok "OK") then
            glog ERROR ("GPS_Module._wait_PDME_conf(): Got [" ++ cmd_ok
                        ++ "] instead of [OK] from " ++ "PDME command "
                        ++ fmt_d cmdcode ++ ".")
          else
            glog INFO ("GPS_Module._wait_PDME_conf():  PDME command "
                       ++ fmt_d cmdcode ++ " confirmed.")
      end).

Definition _do_PDME_cmd (code : Z) (args : list string) : prog unit :=
  _send_PDME_cmd code args;;
  _wait_PDME_conf code.

Definition hotStart : prog unit :=
  emit_ (FlagRise "resetting");;
  _do_PDME_cmd _PDME_HOT_START [].

Definition warmStart : prog unit :=
  emit_ (FlagRise "resetting");;
  emit_ (FlagFall "ephemeris_good");;
  _do_PDME_cmd _PDME_WARM_START [].

Definition coldStart : prog unit :=
  emit_ (FlagRise "resetting");;
  emit_ (FlagFall "ephemeris_good");;
  emit_ (FlagFall "almanac_good");;
  _do_PDME_cmd _PDME_COLD_START [].

(** *** GPS_Manager *)

Definition _calc_GPS_timedelta : prog Z := Delta Ret.

Definition _get_GPS_timedelta : prog Z :=
  glog INFO "GPS_Manager._get_GPS_timedelta():  Waiting for next GPRMC message.";;
  InboxWait "gprmc" (Ret tt);;
  glog INFO "GPS_Manager._get_GPS_timedelta():  Got a GPRMC message.";;
  _calc_GPS_timedelta.

(** [initPosTime] formats its arguments as floating-point numbers; it is
    recorded as one call and not followed. *)
Definition _init_GPS_time : prog unit :=
  UtcNow (fun time =>
    glog NORMAL ("Initializing GPS module's clock to " ++ time ++ " (UTC).");;
    emit_ InitPosTime).

Definition _initTimeIfNeeded : prog unit :=
  td ← _get_GPS_timedelta;
  if (td <? -60000000)%Z || (td >? 60000000)%Z then _init_GPS_time
  else Ret tt.

Definition _hotRestartGPS : prog unit := hotStart;; _initTimeIfNeeded.
Definition _warmRestartGPS : prog unit := warmStart;; _initTimeIfNeeded.
Definition _coldRestartGPS : prog unit := coldStart;; _initTimeIfNeeded.

Definition _ensureSats : prog unit :=
  ReadNSats (fun nSats0 =>
  (match nSats0 with
   | None => Ret true
   | Some _ => FlagTruth "gotSats" (fun b => Ret (negb b))
   end) ≫= fun no_sats =>
  (if no_sats : bool then
     glog INFO "GPS_Manager._ensureSats():  No satellites yet; waiting 5 secs...";;
     gotem ← waitUp "gotSats" (Some 5%Z);
     if negb gotem then
       glog WARNING "GPS_Manager._ensureSats():  Still no satellites after 5 secs; requesting a hot restart...";;
       _hotRestartGPS;;
       glog INFO "GPS_Manager._ensureSats():  Waiting another 5 seconds to receive satellites...";;
       gotem ← waitUp "gotSats" (Some 5%Z);
       if negb gotem then
         glog WARNING "GPS_Manager._ensureSats():  Still no satellites after hot-start + 5 secs.; requesting a warm-start...";;
         _warmRestartGPS;;
         glog INFO "GPS_Manager._ensureSats():  Waiting 40 seconds for acquisition after warm-start...";;
         gotem ← waitUp "gotSats" (Some 40%Z);
         if negb gotem then
           glog ERROR "GPS_Manager._ensureSats():  Still no satellites after warm-start + 40 secs.; requesting a cold-start...";;
           _coldRestartGPS;;
           glog INFO "GPS_Manager._ensureSats():  Waiting 5 minutes for acquisition after cold-start...";;
           gotem ← waitUp "gotSats" (Some (5 * 60)%Z);
           if negb gotem then
             glog ERROR "GPS_Manager._ensureSats():  Still no satellites after cold-start + 5 minutes.; waiting indefinitely...";;
             waitUp "gotSats" None;;
             Ret tt
           else Ret tt
         else Ret tt
       else Ret tt
     else Ret tt
   else Ret tt);;
  ReadNSats (fun nSats1 =>
    match nSats1 with
    | Some n =>
        glog NORMAL ("The GPS module is receiving signals from " ++ fmt_d n
                     ++ " satellites.")
    | None => Raise TypeError
    end)).

(** What a trace shows: the lines sent to the GPS, and the timeouts of
    the waits for satellites. *)
Definition sent_lines (t : list gps_event) : list string :=
  flat_map (fun e => match e with HostSendLine l => [l] | _ => [] end) t.

Definition sat_waits (t : list gps_event) : list (option Z) :=
  flat_map (fun e => match e with
                     | Waited "gotSats" true timeout _ => [timeout]
                     | _ => []
                     end) t.

(** The two together, in the order in which they happen. *)
Definition ladder_step (e : gps_event) : list (option Z + string) :=
  match e with
  | Waited "gotSats" true timeout _ => [inl timeout]
  | HostSendLine l => [inr l]
  | _ => []
  end.

Definition ladder (t : list gps_event) : list (option Z + string) :=
  flat_map ladder_step t.

(** The time checks made: the GPRMC messages waited for. *)
Definition time_check_step (e : gps_event) : list gps_event :=
  match e with
  | InboxWaited "gprmc" => [e]
  | _ => []
  end.

Definition time_checks (t : list gps_event) : nat :=
  List.length (flat_map time_check_step t).

End Gps.

Section GpsFacts.
Import Gps.

Lemma exec_bind {A B} (p : prog A) (h : A -> prog B) (E : env) (n : nat) :
  exec (p ≫= h) E n
  = match exec p E n with
    | (t, Finished (Returns a), m) =>
        let '(t', o, m') := exec (h a) E m in ((t ++ t')%list, o, m')
    | (t, Finished (Raises e), m) => (t, Finished (Raises e), m)
    | (t, Blocked, m) => (t, Blocked, m)
    end.
Proof.
  change (p ≫= h) with (bind p h).
  revert n. induction p as [a|e|e k IH|f tg to k IH|box k IH|k IH|k IH|f k IH|k IH|k IH];
    intros n; cbn [bind exec].
  - destruct (exec (h a) E n) as [[t o] m]. reflexivity.
  - reflexivity.
  - rewrite IH. destruct (exec k E n) as [[t [[a|x]|]] m]; try reflexivity.
    destruct (exec (h a) E m) as [[t' o'] m']. reflexivity.
  - destruct to as [z|], (flag_reached E f n); try reflexivity; rewrite IH;
      match goal with
      | |- context [exec (k ?b) E (S n)] =>
          destruct (exec (k b) E (S n)) as [[t [[a|x]|]] m]
      end; try reflexivity;
      destruct (exec (h a) E m) as [[t' o'] m']; reflexivity.
  - destruct (inbox_has E box n); [|reflexivity]. rewrite IH.
    destruct (exec k E (S n)) as [[t [[a|x]|]] m]; try reflexivity.
    destruct (exec (h a) E m) as [[t' o'] m']. reflexivity.
  - destruct (pdme E n) as [rec|]; [|reflexivity]. rewrite IH.
    destruct (exec (k rec) E (S n)) as [[t [[a|x]|]] m]; try reflexivity.
    destruct (exec (h a) E m) as [[t' o'] m']. reflexivity.
  - apply IH.
  - apply IH.
  - apply IH.
  - apply IH.
Qed.

Lemma exec_bind_fix {A B} (p : prog A) (h : A -> prog B) (E : env) (n : nat) :
  exec (bind p h) E n
  = match exec p E n with
    | (t, Finished (Returns a), m) =>
        let '(t', o, m') := exec (h a) E m in ((t ++ t')%list, o, m')
    | (t, Finished (Raises e), m) => (t, Finished (Raises e), m)
    | (t, Blocked, m) => (t, Blocked, m)
    end.
Proof. exact (exec_bind p h E n). Qed.

End GpsFacts.

Ltac gps_split E :=
  match goal with
  | |- context [Gps.flag_reached E ?f ?n] =>
      destruct (Gps.flag_reached E f n) eqn:?
  | |- context [Gps.inbox_has E ?b ?n] => destruct (Gps.inbox_has E b n) eqn:?
  | |- context [Gps.truth E ?n] => destruct (Gps.truth E n) eqn:?
  | |- context [Gps.the_nSats E ?n] => destruct (Gps.the_nSats E n) eqn:?
  | |- context [(Gps.delta E ?n <? ?c)%Z] => destruct (Gps.delta E n <? c)%Z eqn:?
  | |- context [(Gps.delta E ?n >? ?c)%Z] => destruct (Gps.delta E n >? c)%Z eqn:?
  end.

Ltac gps_run E :=
  repeat (cbn -[Z.ltb Z.gtb String.append fmt_d]; try gps_split E).

Section RestartFacts.
Import Gps.

(** What a restart shows, whatever the environment: one line sent, no
    wait for satellites; it returns or it never does. *)
Definition restart_run (p : prog unit) (line : string) : Prop :=
  forall E n, exists t o m,
    exec p E n = (t, o, m)
    /\ sent_lines t = [line] /\ sat_waits t = []
    /\ (o = Finished (Returns tt) \/ o = Blocked).

Lemma hotRestart_run : restart_run _hotRestartGPS "GPS $PDME,2".
Proof.
  intros E n. unfold _hotRestartGPS, hotStart, _initTimeIfNeeded.
  gps_run E; eexists _, _, _; (split; [reflexivity|]); cbn; auto.
Qed.

Lemma warmRestart_run : restart_run _warmRestartGPS "GPS $PDME,1".
Proof.
  intros E n. unfold _warmRestartGPS, warmStart, _initTimeIfNeeded.
  gps_run E; eexists _, _, _; (split; [reflexivity|]); cbn; auto.
Qed.

Lemma coldRestart_run : restart_run _coldRestartGPS "GPS $PDME,0".
Proof.
  intros E n. unfold _coldRestartGPS, coldStart, _initTimeIfNeeded.
  gps_run E; eexists _, _, _; (split; [reflexivity|]); cbn; auto.
Qed.

End RestartFacts.

Ltac restart_step E lemma p :=
  rewrite ?exec_bind_fix;
  match goal with
  | |- context [Gps.exec (p ≫= ?h) E ?n] =>
      rewrite (exec_bind p h E n);
      let t := fresh "t" in
      let o := fresh "o" in
      let m := fresh "m" in
      let Hs := fresh "Hs" in
      let Hw := fresh "Hw" in
      destruct (lemma E n) as (t & o & m & -> & Hs & Hw & [-> | ->])
  end.

Ltac ladder_run E :=
  repeat (cbn -[Z.ltb Z.gtb String.append fmt_d Gps._hotRestartGPS
                Gps._warmRestartGPS Gps._coldRestartGPS];
          try first [ restart_step E hotRestart_run Gps._hotRestartGPS
                    | restart_step E warmRestart_run Gps._warmRestartGPS
                    | restart_step E coldRestart_run Gps._coldRestartGPS
                    | gps_split E ]).

Ltac ladder_obs :=
  unfold Gps.sent_lines, Gps.sat_waits in *;
  repeat (cbn -[String.append fmt_d]; rewrite ?flat_map_app);
  repeat match goal with
         | H : flat_map _ _ = _ |- _ => rewrite !H; clear H
         end;
  cbn -[String.append fmt_d].

#[local] Opaque Gps._hotRestartGPS Gps._warmRestartGPS Gps._coldRestartGPS.


#[local] Transparent Gps._hotRestartGPS Gps._warmRestartGPS Gps._coldRestartGPS.

Section NoSatellites.
Import Gps.
Variable E : env.
Hypothesis no_satellites : forall n, flag_reached E "gotSats" n = false.
Hypothesis resets_complete : forall n, flag_reached E "resetting" n = true.
Hypothesis gprmc_arrives : forall n, inbox_has E "gprmc" n = true.

Definition restart_returns (p : prog unit) (line : string) : Prop :=
  forall n, exists t m,
    exec p E n = (t, Finished (Returns tt), m)
    /\ ladder t = [inr line] /\ time_checks t = 1%nat.

Ltac quiet_run :=
  repeat (cbn -[Z.ltb Z.gtb String.append fmt_d];
          rewrite ?resets_complete, ?gprmc_arrives;
          try match goal with
              | |- context [(delta E ?n <? ?c)%Z] =>
                  destruct (delta E n <? c)%Z eqn:?
              | |- context [(delta E ?n >? ?c)%Z] =>
                  destruct (delta E n >? c)%Z eqn:?
              end).

Lemma hotRestart_returns : restart_returns _hotRestartGPS "GPS $PDME,2".
Proof.
  intros n. unfold _hotRestartGPS, hotStart, _initTimeIfNeeded.
  quiet_run; eexists _, _; (split; [reflexivity|]); split; reflexivity.
Qed.

Lemma warmRestart_returns : restart_returns _warmRestartGPS "GPS $PDME,1".
Proof.
  intros n. unfold _warmRestartGPS, warmStart, _initTimeIfNeeded.
  quiet_run; eexists _, _; (split; [reflexivity|]); split; reflexivity.
Qed.

Lemma coldRestart_returns : restart_returns _coldRestartGPS "GPS $PDME,0".
Proof.
  intros n. unfold _coldRestartGPS, coldStart, _initTimeIfNeeded.
  quiet_run; eexists _, _; (split; [reflexivity|]); split; reflexivity.
Qed.

#[local] Opaque _hotRestartGPS _warmRestartGPS _coldRestartGPS.

Ltac quiet_restart lemma p :=
  rewrite ?exec_bind_fix;
  match goal with
  | |- context [exec (p ≫= ?h) E ?n] =>
      rewrite (exec_bind p h E n);
      let t := fresh "t" in
      let m := fresh "m" in
      let Hl := fresh "Hl" in
      let Hc := fresh "Hc" in
      destruct (lemma n) as (t & m & -> & Hl & Hc)
  end.

Ltac wait_in_vain :=
  repeat (progress (cbn -[Z.ltb Z.gtb String.append fmt_d];
                    rewrite ?no_satellites)).

Lemma ensureSats_entered (n : nat) (k : unit -> prog unit) :
  let body :=
    glog INFO "GPS_Manager._ensureSats():  No satellites yet; waiting 5 secs...";;
    gotem ← waitUp "gotSats" (Some 5%Z);
    if negb gotem then
      glog WARNING "GPS_Manager._ensureSats():  Still no satellites after 5 secs; requesting a hot restart...";;
      _hotRestartGPS;;
      glog INFO "GPS_Manager._ensureSats():  Waiting another 5 seconds to receive satellites...";;
      gotem ← waitUp "gotSats" (Some 5%Z);
      if negb gotem then
        glog WARNING "GPS_Manager._ensureSats():  Still no satellites after hot-start + 5 secs.; requesting a warm-start...";;
        _warmRestartGPS;;
        glog INFO "GPS_Manager._ensureSats():  Waiting 40 seconds for acquisition after warm-start...";;
        gotem ← waitUp "gotSats" (Some 40%Z);
        if negb gotem then
          glog ERROR "GPS_Manager._ensureSats():  Still no satellites after warm-start + 40 secs.; requesting a cold-start...";;
          _coldRestartGPS;;
          glog INFO "GPS_Manager._ensureSats():  Waiting 5 minutes for acquisition after cold-start...";;
          gotem ← waitUp "gotSats" (Some (5 * 60)%Z);
          if negb gotem then
            glog ERROR "GPS_Manager._ensureSats():  Still no satellites after cold-start + 5 minutes.; waiting indefinitely...";;
            waitUp "gotSats" None;;
            Ret tt
          else Ret tt
        else Ret tt
      else Ret tt
    else Ret tt in
  let r := exec (body ≫= k) E n in
  outcome_of_run r = Blocked
  /\ ladder (trace_of_run r)
     = [inl (Some 5%Z); inr "GPS $PDME,2"; inl (Some 5%Z); inr "GPS $PDME,1";
        inl (Some 40%Z); inr "GPS $PDME,0"; inl (Some 300%Z); inl None]
  /\ time_checks (trace_of_run r) = 3%nat.
Proof.
  intros body r. subst body r. unfold outcome_of_run, trace_of_run.
  wait_in_vain.
  quiet_restart hotRestart_returns _hotRestartGPS.
  wait_in_vain.
  quiet_restart warmRestart_returns _warmRestartGPS.
  wait_in_vain.
  quiet_restart coldRestart_returns _coldRestartGPS.
  wait_in_vain.
  unfold ladder, time_checks in *.
  repeat (cbn [flat_map]; rewrite ?flat_map_app).
  rewrite !List.length_app, Hl, Hl0, Hl1, Hc, Hc0, Hc1. repeat split.
Qed.

End NoSatellites.

(** An environment in which no satellite is ever received: the
    [gotSats] flag never rises; resets complete and GPRMC messages
    keep arriving, with the GPS clock right. *)
Definition dark_sky : Gps.env :=
  Gps.mkEnv (fun f _ => negb (String.eqb f "gotSats")) (fun _ _ => true)
            (fun _ => None) (fun _ => None) (fun _ => true) (fun _ => 0%Z)
            (fun _ => "2012-01-01 00:00:00").



(** ** gps.py: GPGGA messages *)

Definition published (t : list Gps.gps_event) : list Gps.GPGGA_Record :=
  flat_map (fun e => match e with
                     | Gps.Published _ rec => [rec]
                     | _ => []
                     end) t.

(** The satellite count and its flag agree. *)
Definition gps_ok (this : Gps.GPS_Module) : Prop :=
  (Gps.gotSats this = true
   <-> exists n, Gps.nSats this = Some n /\ (1 <= n)%Z)
  /\ Gps.last_nSats this = Gps.nSats this.

(** X25.  [_handleGPGGA] keeps the satellite count and its flag in
    step: after any message, accepted or not, [gotSats] is up exactly
    when a count of at least 1 is stored, and [last_nSats] equals
    [nSats].  Either the message changes nothing and nothing is
    published (wrong number of fields, or a count that is not an
    integer, which raises), or exactly one record is published, the one
    put in the inbox, whose eighth word, read as an integer, is the new
    count. *)
Theorem handleGPGGA_effect (msgWords : list string) (this : Gps.GPS_Module) :
  gps_ok this ->
  let r := Gps._handleGPGGA msgWords this in
  let this' := snd (fst r) in
  gps_ok this'
  /\ ((this' = this /\ published (snd r) = [])
      \/ exists rec n,
           fst (fst r) = Returns tt
           /\ published (snd r) = [rec]
           /\ Gps.gpgga_inbox this' = Some rec
           /\ Some (Gps.NbSat rec) = msgWords !! 7%nat
           /\ PyStr.int_base10 (Gps.NbSat rec) = Returns n
           /\ Gps.nSats this' = Some n
           /\ Gps.gotSats this' = (1 <=? n)%Z).
Proof.
  intros Hok r this'. subst this' r. unfold Gps._handleGPGGA.
  destruct (negb (Z.of_nat (List.length msgWords) - 1 =? 14)%Z);
    [split; [exact Hok | left; split; reflexivity]|].
  destruct msgWords
    as [|w0 [|w1 [|w2 [|w3 [|w4 [|w5 [|w6 [|w7 [|w8 [|w9 [|w10 [|w11
        [|w12 [|w13 [|w14 rest]]]]]]]]]]]]]]];
    try (split; [exact Hok | left; split; reflexivity]).
  cbn [Gps.NbSat].
  destruct (PyStr.int_base10 w7) as [n|e] eqn:Hn;
    [|split; [exact Hok | left; split; reflexivity]].
  cbn [Gps.nSats Gps.last_nSats Gps.gotSats Gps.gpgga_inbox].
  assert (Hflag : forall b,
             gps_ok (Gps.mkGPS (Some n) (Some n) (1 <=? n)%Z b)).
  { intros b. split; [|reflexivity]. cbn. split.
    - intros H. exists n. split; [reflexivity|]. now apply Z.leb_le.
    - intros (k & [= <-] & Hk). now apply Z.leb_le. }
  destruct (bool_decide (Some n = Gps.last_nSats this)) eqn:Hd; cbn [negb].
  - apply bool_decide_eq_true in Hd.
    destruct (n =? 0)%Z; cbn [fst snd Gps.nSats Gps.last_nSats Gps.gotSats
                                Gps.gpgga_inbox]; rewrite <- Hd;
      (split; [apply Hflag|]); right;
      eexists _, n; repeat split; exact Hn.
  - cbn [fst snd Gps.nSats Gps.last_nSats Gps.gotSats Gps.gpgga_inbox].
    split; [apply Hflag|]. right.
    eexists _, n. destruct (n =? 0)%Z; repeat split; exact Hn.
Qed.

Lemma handleGPGGA_effect_witness :
  gps_ok (snd (fst (Gps._handleGPGGA
                      ["GPGGA"; "123519"; "4807.038"; "N"; "01131.000"; "E";
                       "1"; "08"; "0.9"; "545.4"; "M"; "46.9"; "M"; ""; ""]
                      Gps.init))).
Proof.
  refine (proj1 (handleGPGGA_effect _ Gps.init _)).
  split; [split|reflexivity].
  - discriminate.
  - intros (n & H & _). discriminate H.
Defined.

(** ** model.py: looking a node up by address *)

Section NodeWithIP.
Import Model.

Lemma first_with_ip_spec (m : gmap Z SensorNode) (ip : string) (keys : list Z) :
  match first_with_ip m ip keys with
  | Some id =>
      In id keys /\ exists node, m !! id = Some node /\ ipaddr node = ip
  | None =>
      forall id node, In id keys -> m !! id = Some node -> ipaddr node <> ip
  end.
Proof.
  induction keys as [|k keys IH]; cbn [first_with_ip].
  - intros id node [].
  - destruct (m !! k) as [n|] eqn:E.
    + destruct (String.eqb_spec (ipaddr n) ip) as [Hip|Hip].
      * split; [now left|]. now exists n.
      * destruct (first_with_ip m ip keys) as [id|].
        -- destruct IH as (Hin & Hn). split; [now right | exact Hn].
        -- intros id node [<-|Hin] Hl; [|now apply (IH id)].
           rewrite E in Hl. injection Hl as <-. exact Hip.
    + destruct (first_with_ip m ip keys) as [id|].
      * destruct IH as (Hin & Hn). split; [now right | exact Hn].
      * intros id node [<-|Hin] Hl; [congruence | now apply (IH id)].
Qed.

End NodeWithIP.

(** X28.  In a well-formed registry [nodeWithIP(ip)] answers for the
    whole registry: the id it returns is that of a registered node with
    address [ip], and [None] means that no registered node has that
    address. *)
Theorem nodeWithIP_spec (net : Model.SensorNet) (ip : string) :
  registry_ok net ->
  match Model.nodeWithIP ip net with
  | Some id =>
      exists node,
        Model.nodes net !! id = Some node /\ Model.ipaddr node = ip
  | None =>
      forall id node,
        Model.nodes net !! id = Some node -> Model.ipaddr node <> ip
  end.
Proof.
  intros (_ & Hdom & _). unfold Model.nodeWithIP.
  pose proof (first_with_ip_spec (Model.nodes net) ip (Model.order net)) as H.
  destruct (Model.first_with_ip (Model.nodes net) ip (Model.order net))
    as [id|].
  - exact (proj2 H).
  - intros id node Hl. apply (H id node); [|exact Hl].
    apply Hdom. now exists node.
Qed.

Lemma nodeWithIP_spec_witness :
  exists node,
    Model.nodes net_with_node1 !! 1%Z = Some node
    /\ Model.ipaddr node = "192.168.0.11".
Proof.
  exact (nodeWithIP_spec net_with_node1 "192.168.0.11"
           (keeps_nodeOn 1 "192.168.0.11" "aa:bb:cc:dd:ee:01" 100
              Model.SensorNet_init registry_ok_init)).
Defined.

(** ** commands.py: a heartbeat line *)

Section HeartbeatFacts.
Import Commands.

Lemma parseNodeNum_integer (cmd : Command) (first : string)
      (rest : list string) (n : Z) :
  cmdArgs cmd = first :: rest ->
  PyStr.int_base10 first = Returns n ->
  state_of (run parseNodeNum cmd)
  = set_cmdArgs rest (set_nodeNum (Some n) cmd).
Proof.
  intros Ha Hi. unfold parseNodeNum. rewrite run_get_bind, Ha, Hi.
  reflexivity.
Qed.

End HeartbeatFacts.


